(** * UefiVariablesSupportLinuxLib: the efivarfs accessor

    A shallow embedding of
    [SetupDataPkg/Tools/SettingSupport/UefiVariablesSupportLinuxLib.py]
    (class [UefiVariable]: [CreateBuffer], [GetUefiVar],
    [GetUefiAllVarNames], [SetUefiVar]) together with the parts of the
    Python runtime the class calls ([str.split], [str.join], [str.encode],
    [uuid.UUID], [struct.pack], [sys.getsizeof],
    [ctypes.create_string_buffer], [os.path.exists], [os.listdir], [open],
    [os.remove]).

    Conventions.
    - A Python [str] is a list of characters.  A character is a code point
      below U+0100 or one of the lone surrogates U+DC00..U+DCFF; the upper
      half of these, U+DC80..U+DCFF, is what [os.listdir] puts for a byte
      of a file name that is no UTF-8.  Other code points are not covered,
      nor are file names whose bytes are the UTF-8 form of one.
    - [bytes] and [bytearray] values are lists of [Byte.byte].
    - UEFI platforms are little-endian: native byte order ([=] in
      [struct.pack], the [utf-16] codec) is little-endian.
    - The interpreter is CPython 3.8 or later, on Linux (NAME_MAX 255,
      PATH_MAX 4096).
    - The pseudo-filesystem is an external collaborator.  The directory
      [/sys/firmware/efi/efivars] is either absent or holds an ordered list
      of regular files and no subdirectory; a path is resolved component
      by component, as the kernel does.  Only the store is modelled: a path
      that leaves the store and does not come back names nothing that
      exists or can be created, and there are no symbolic links.  The
      files are plain files: what efivarfs itself checks when a file is
      created or written is not part of the model. *)

From Stdlib Require Import String Ascii List ZArith NArith Bool Lia.
From Stdlib.Strings Require Import Byte.
Import ListNotations.

Local Open Scope Z_scope.

(** ** Python strings *)

Module PyStr.

(** A character: the code point of an [ascii] value, or the lone surrogate
    U+DC00 + [b]. *)
Inductive pychar : Type :=
| Chr (a : ascii)
| Esc (b : byte).

Definition pystr := list pychar.

(** A string literal. *)
Definition lit (s : string) : pystr := map Chr (list_ascii_of_string s).

Definition code (c : pychar) : Z :=
  match c with
  | Chr a => Z.of_nat (nat_of_ascii a)
  | Esc b => 56320 + Z.of_N (Byte.to_N b)
  end.

Definition is_surrogate (c : pychar) : bool :=
  match c with
  | Chr _ => false
  | Esc _ => true
  end.

Definition chr_eqb (x y : pychar) : bool :=
  match x, y with
  | Chr a, Chr b => Ascii.eqb a b
  | Esc a, Esc b => Byte.eqb a b
  | _, _ => false
  end.

Definition hyphen : pychar := Chr "-".

Definition zero : pychar := Chr Ascii.zero.

Fixpoint str_eqb (a b : pystr) : bool :=
  match a, b with
  | [], [] => true
  | x :: a', y :: b' => chr_eqb x y && str_eqb a' b'
  | _, _ => false
  end.

(** [s.split(sep)] for a one-character separator. *)
Fixpoint split (sep : pychar) (s : pystr) : list pystr :=
  match s with
  | [] => [[]]
  | c :: s' =>
      if chr_eqb c sep then [] :: split sep s'
      else match split sep s' with
           | seg :: segs => (c :: seg) :: segs
           | [] => [[c]]
           end
  end.

(** [sep.join(parts)] for a one-character separator. *)
Fixpoint join (sep : pychar) (parts : list pystr) : pystr :=
  match parts with
  | [] => []
  | [p] => p
  | p :: ps => p ++ sep :: join sep ps
  end.

(** The slices [l[-n:]] and [l[:-n]] for [n > 0]. *)
Definition slice_last {A} (n : nat) (l : list A) : list A :=
  skipn (length l - n) l.

Definition slice_but_last {A} (n : nat) (l : list A) : list A :=
  firstn (length l - n) l.

(** The slice [l[a:b]] for [0 <= a <= b]. *)
Definition slice {A} (a b : nat) (l : list A) : list A :=
  firstn (b - a) (skipn a l).

Fixpoint startswith (p s : pystr) : bool :=
  match p, s with
  | [], _ => true
  | x :: p', y :: s' => chr_eqb x y && startswith p' s'
  | _ :: _, [] => false
  end.

(** [s.replace(old, '')] for a non-empty [old]: occurrences are found left
    to right and do not overlap.  [skip] counts the characters of a match
    still to be dropped. *)
Fixpoint remove_sub (old s : pystr) (skip : nat) : pystr :=
  match s with
  | [] => []
  | c :: s' =>
      match skip with
      | S k => remove_sub old s' k
      | O => if startswith old s then remove_sub old s' (length old - 1)
             else c :: remove_sub old s' 0
      end
  end.

Definition replace_empty (old s : pystr) : pystr := remove_sub old s 0.

Definition in_chars (c : pychar) (chars : pystr) : bool :=
  existsb (chr_eqb c) chars.

Fixpoint lstrip (chars s : pystr) : pystr :=
  match s with
  | [] => []
  | c :: s' => if in_chars c chars then lstrip chars s' else s
  end.

Fixpoint rstrip (chars s : pystr) : pystr :=
  match s with
  | [] => []
  | c :: s' =>
      match rstrip chars s' with
      | [] => if in_chars c chars then [] else [c]
      | r => c :: r
      end
  end.

(** [s.strip(chars)] *)
Definition strip (chars s : pystr) : pystr := rstrip chars (lstrip chars s).

(** *** [int(s, 16)] *)

(** [_PyLong_DigitValue] below base 16. *)
Definition digit_value16 (c : pychar) : option Z :=
  let n := code c in
  if (48 <=? n) && (n <=? 57) then Some (n - 48)
  else if (97 <=? n) && (n <=? 102) then Some (n - 87)
  else if (65 <=? n) && (n <=? 70) then Some (n - 55)
  else None.

(** [Py_ISSPACE]: the six ASCII white-space characters. *)
Definition Py_ISSPACE (c : pychar) : bool :=
  let n := code c in ((9 <=? n) && (n <=? 13)) || (n =? 32).

(** Conversion of a non-ASCII string before parsing: white space above
    U+007F becomes a blank, any other character above U+007E a question
    mark (no decimal digit lies between U+0080 and U+00FF, and a surrogate
    is neither). *)
Definition to_ascii_char (c : pychar) : pychar :=
  let n := code c in
  if n <? 127 then c
  else if (n =? 133) || (n =? 160) then Chr " "
  else Chr "?".

Definition is_ascii (s : pystr) : bool := forallb (fun c => code c <? 128) s.

Definition transform_space_to_ascii (s : pystr) : pystr :=
  if is_ascii s then s else map to_ascii_char s.

Fixpoint skip_space (s : pystr) : pystr :=
  match s with
  | c :: s' => if Py_ISSPACE c then skip_space s' else s
  | [] => []
  end.

(** The digit loop of [long_from_binary_base]: digits and single
    underscores between them.  Returns the value, the number of digits and
    the unread rest, or [None] on a doubled or trailing underscore. *)
Fixpoint scan_digits16 (s : pystr) (prev_underscore : bool) (digits : nat)
    (acc : Z) : option (Z * nat * pystr) :=
  match s with
  | c :: s' =>
      if chr_eqb c (Chr "_") then
        if prev_underscore then None else scan_digits16 s' true digits acc
      else
        match digit_value16 c with
        | Some d => scan_digits16 s' false (S digits) (acc * 16 + d)
        | None => if prev_underscore then None else Some (acc, digits, s)
        end
  | [] => if prev_underscore then None else Some (acc, digits, s)
  end.

Definition skip_sign (s : pystr) : Z * pystr :=
  match s with
  | c :: s' =>
      if chr_eqb c (Chr "+") then (1, s')
      else if chr_eqb c (Chr "-") then (-1, s')
      else (1, s)
  | [] => (1, s)
  end.

Definition skip_prefix16 (s : pystr) : pystr :=
  match s with
  | c0 :: c1 :: s' =>
      if chr_eqb c0 (Chr "0") && (chr_eqb c1 (Chr "x") || chr_eqb c1 (Chr "X")) then
        match s' with
        | u :: s'' => if chr_eqb u (Chr "_") then s'' else s'
        | [] => s'
        end
      else s
  | _ => s
  end.

(** [int(s, 16)]; [None] stands for [ValueError]. *)
Definition int16 (s : pystr) : option Z :=
  let s := skip_space (transform_space_to_ascii s) in
  let '(sign, s) := skip_sign s in
  let s := skip_prefix16 s in
  if startswith [Chr "_"] s then None
  else
    match scan_digits16 s false 0 0 with
    | None => None
    | Some (v, digits, rest) =>
        match digits with
        | O => None
        | S _ => match skip_space rest with
                 | [] => Some (sign * v)
                 | _ :: _ => None
                 end
        end
    end.

(** *** ['%032x' % n] *)

Definition hexchars : pystr := lit "0123456789abcdef".

Definition hex_digit (d : nat) : pychar := nth d hexchars (Chr "0").

(** The [w] low hexadecimal digits of [n], most significant first.  For
    [0 <= n < 16 ^ w] this is ['%0wx' % n]. *)
Fixpoint hex_fixed (w : nat) (n : Z) : pystr :=
  match w with
  | O => []
  | S w' => hex_fixed w' (n / 16) ++ [hex_digit (Z.to_nat (n mod 16))]
  end.

(** *** The UTF-16 form of a string *)

Definition byte_of_Z (z : Z) : byte :=
  match Byte.of_N (Z.to_N (z mod 256)) with
  | Some b => b
  | None => x00
  end.

(** Byte-order mark, then one little-endian code unit per character. *)
Definition encode_utf16 (s : pystr) : list byte :=
  [xff; xfe] ++ flat_map (fun c => [byte_of_Z (code c); byte_of_Z (code c / 256)]) s.

End PyStr.
Import PyStr.

(** ** Exceptions, results and the interpreter state *)

Inductive exn : Type :=
| ValueError
| UnicodeEncodeError
| TypeError
| IndexError
| AttributeError
| struct_error
| OSError
| Exception (msg : pystr).

Inductive outcome (A : Type) : Type :=
| Return (a : A)
| Raise (e : exn).

Arguments Return {A} a.
Arguments Raise {A} e.

(** One regular file of the store: the name [os.listdir] returns for it,
    and its content. *)
Definition entry : Type := pystr * list byte.

(** The interpreter state the class can observe or change: the store
    directory ([None] when [/sys/firmware/efi/efivars] does not exist, else
    its files in listing order) and the lines printed so far. *)
Record state : Type := mkState {
  efivars : option (list entry);
  stdout : list pystr
}.

(** Computations that read and change the state and may raise. *)
Definition M (A : Type) : Type := state -> outcome A * state.

Definition ret {A} (a : A) : M A := fun st => (Return a, st).

Definition bind {A B} (m : M A) (k : A -> M B) : M B :=
  fun st =>
    match m st with
    | (Return a, st') => k a st'
    | (Raise e, st') => (Raise e, st')
    end.

Definition raise {A} (e : exn) : M A := fun st => (Raise e, st).

Definition lift {A} (o : outcome A) : M A := fun st => (o, st).

Declare Scope py_scope.
Delimit Scope py_scope with py.
Notation "x <- m ;; k" := (bind m (fun x => k))
  (at level 61, m at next level, right associativity) : py_scope.
Notation "' pat <- m ;; k" := (bind m (fun x => let 'pat := x in k))
  (at level 61, pat pattern, m at next level, right associativity) : py_scope.
Notation "m ;; k" := (bind m (fun _ => k))
  (at level 61, right associativity) : py_scope.

Local Open Scope py_scope.

(** [for x in xs: body], the loop's local variables threaded as [acc]. *)
Fixpoint for_each {A S} (xs : list A) (body : A -> S -> M S) (acc : S) : M S :=
  match xs with
  | [] => ret acc
  | x :: xs' => acc' <- body x acc ;; for_each xs' body acc'
  end.

(** [print(x)] *)
Definition print (line : pystr) : M unit :=
  fun st => (Return tt, mkState (efivars st) (stdout st ++ [line])).

(** [s.encode('utf-16')]: a surrogate cannot be encoded. *)
Definition str_encode (s : pystr) : outcome (list byte) :=
  if existsb is_surrogate s then Raise UnicodeEncodeError
  else Return (encode_utf16 s).

(** ** [uuid] *)

Module uuid.

(** A [uuid.UUID] object holds its value as an integer [0 <= int < 2**128]. *)
Record UUID : Type := mkUUID { int : Z }.

Definition valid (u : UUID) : Prop := 0 <= int u < 2 ^ 128.

(** [uuid.UUID(hex)] *)
Definition UUID_of_hex (hex : pystr) : outcome UUID :=
  let hex := replace_empty (lit "uuid:") (replace_empty (lit "urn:") hex) in
  let hex := replace_empty (lit "-") (strip (lit "{}") hex) in
  if negb (Nat.eqb (length hex) 32) then Raise ValueError
  else
    match int16 hex with
    | None => Raise ValueError
    | Some i =>
        if negb ((0 <=? i) && (i <? 2 ^ 128)) then Raise ValueError
        else Return (mkUUID i)
    end.

(** [str(u)]: the canonical 8-4-4-4-12 form. *)
Definition str (u : UUID) : pystr :=
  let hex := hex_fixed 32 (int u) in
  slice 0 8 hex ++ hyphen :: slice 8 12 hex ++ hyphen :: slice 12 16 hex
    ++ hyphen :: slice 16 20 hex ++ hyphen :: skipn 20 hex.

(** [n.to_bytes(w, 'big')] for [0 <= n < 256 ^ w]. *)
Fixpoint to_bytes_big (w : nat) (n : Z) : list byte :=
  match w with
  | O => []
  | S w' => to_bytes_big w' (n / 256) ++ [byte_of_Z n]
  end.

(** [u.bytes] *)
Definition bytes (u : UUID) : list byte := to_bytes_big 16 (int u).

(** [u.bytes_le]: the first three fields byte-swapped. *)
Definition bytes_le (u : UUID) : list byte :=
  let bytes := bytes u in
  rev (slice 0 4 bytes) ++ rev (slice 4 6 bytes) ++ rev (slice 6 8 bytes)
    ++ skipn 8 bytes.

End uuid.

(** ** [struct], [sys] and [ctypes] *)

(** [struct.pack('=I', v)]: four bytes, native (little-endian) order. *)
Definition struct_pack_I (v : Z) : outcome (list byte) :=
  if (0 <=? v) && (v <=? 4294967295) then
    Return [byte_of_Z v; byte_of_Z (v / 256); byte_of_Z (v / 65536);
            byte_of_Z (v / 16777216)]
  else Raise struct_error.

(** What [sys.getsizeof] answers depends on the interpreter build: the size
    in bytes of the type object [int], of a [bytes] object and of a
    [bytearray] object.  A size is never negative. *)
Record interp : Type := mkInterp {
  getsizeof_int_type : N;
  getsizeof_bytes : list byte -> N;
  getsizeof_bytearray : list byte -> N
}.

(** A 64-bit CPython 3.11. *)
Definition cpython : interp :=
  mkInterp 424
    (fun b => 33 + N.of_nat (length b))%N
    (fun b => match b with [] => 56 | _ :: _ => 57 + N.of_nat (length b) end)%N.

(** [ctypes.create_string_buffer(size)] for an integer [size]: that many
    zero bytes. *)
Definition create_string_buffer (size : N) : list byte :=
  repeat x00 (N.to_nat size).

Fixpoint list_set {A} (i : nat) (x : A) (l : list A) : list A :=
  match l, i with
  | [], _ => []
  | _ :: l', O => x :: l'
  | y :: l', S i' => y :: list_set i' x l'
  end.

(** [buf[index] = value] on a [c_char] array, for an index that is not
    negative: the index is checked first, then the value must be a single
    byte. *)
Definition buffer_setitem (buf : list byte) (index : N) (value : list byte)
    : outcome (list byte) :=
  if (N.of_nat (length buf) <=? index)%N then Raise IndexError
  else
    match value with
    | [b] => Return (list_set (N.to_nat index) b buf)
    | _ => Raise TypeError
    end.

(** ** The pseudo-filesystem *)

Module os.

Definition efivars_dir : pystr := lit "/sys/firmware/efi/efivars".

(** The directories from the root down to the store. *)
Definition ancestors : list pystr :=
  [lit "sys"; lit "firmware"; lit "efi"; lit "efivars"].

(** The bytes of a character in a file name ([os.fsencode]: UTF-8 with
    [surrogateescape]); only the surrogates U+DC80..U+DCFF stand for a
    byte. *)
Definition utf8 (c : pychar) : option (list byte) :=
  match c with
  | Chr a =>
      let n := code c in
      if n <? 128 then Some [byte_of_Z n]
      else Some [byte_of_Z (192 + n / 64); byte_of_Z (128 + n mod 64)]
  | Esc b => if (128 <=? Byte.to_N b)%N then Some [b] else None
  end.

Fixpoint fsencode (s : pystr) : outcome (list byte) :=
  match s with
  | [] => Return []
  | c :: s' =>
      match utf8 c with
      | None => Raise UnicodeEncodeError
      | Some b =>
          match fsencode s' with
          | Return bs => Return (b ++ bs)
          | Raise e => Raise e
          end
      end
  end.

(** The length in bytes of a path component. *)
Definition fs_length (s : pystr) : nat :=
  match fsencode s with
  | Return bs => length bs
  | Raise _ => 0
  end.

(** The name of a file as [os.listdir] returns it ([os.fsdecode]): UTF-8
    with [surrogateescape].  A byte below 0x80 is its character, C2 or C3
    with a continuation byte is a character from U+0080 to U+00FF, and any
    other byte is escaped to a lone surrogate. *)
Fixpoint fsdecode (bs : list byte) : pystr :=
  match bs with
  | [] => []
  | b :: rest =>
      let n := Z.of_N (Byte.to_N b) in
      if n <? 128 then Chr (ascii_of_nat (Z.to_nat n)) :: fsdecode rest
      else
        match rest with
        | b2 :: rest' =>
            let n2 := Z.of_N (Byte.to_N b2) in
            if ((n =? 194) || (n =? 195)) && (128 <=? n2) && (n2 <? 192)
            then Chr (ascii_of_nat (Z.to_nat ((n - 192) * 64 + (n2 - 128))))
                   :: fsdecode rest'
            else Esc b :: fsdecode rest
        | [] => [Esc b]
        end
  end.

(** The listed name of the file a component names: two strings with the
    same bytes name the same file. *)
Definition canon (c : pystr) : pystr :=
  match fsencode c with
  | Return bs => fsdecode bs
  | Raise _ => c
  end.

(** What a path can name in the store: one of its files, by the name it
    is listed with, or the store directory itself. *)
Inductive node : Type :=
| File (e : pystr)
| Dir.

Definition is_blank (c : pystr) : bool :=
  str_eqb c [] || str_eqb c (lit ".").

(** The walk along the components of an absolute path.  [depth] counts the
    [ancestors] passed: 4 is the store directory.  An empty component and
    [.] stay in place, [..] goes one up; a name longer than NAME_MAX is
    refused; above the store only the next ancestor is known; in the store,
    which has no subdirectory, a name is a file and must come last. *)
Fixpoint walk (depth : nat) (comps : list pystr) : outcome node :=
  match comps with
  | [] => if Nat.eqb depth 4 then Return Dir else Raise OSError
  | c :: rest =>
      if is_blank c then walk depth rest
      else if str_eqb c (lit "..") then walk (Nat.pred depth) rest
      else if Nat.ltb 255 (fs_length c) then Raise OSError
      else if Nat.ltb depth 4 then
        if str_eqb c (nth depth ancestors []) then walk (S depth) rest
        else Raise OSError
      else
        match rest with
        | [] => Return (File (canon c))
        | _ :: _ => Raise OSError
        end
  end.

(** What a path names.  The path is first converted to bytes, which
    raises [UnicodeEncodeError] for a surrogate that stands for no byte
    and [ValueError] for an embedded null byte; a path longer than
    PATH_MAX, a relative path and a path that does not end in the store
    give [OSError]. *)
Definition resolve (path : pystr) : outcome node :=
  match fsencode path with
  | Raise e => Raise e
  | Return bytes =>
      if existsb (Byte.eqb x00) bytes then Raise ValueError
      else if Nat.ltb 4095 (length bytes) then Raise OSError
      else if startswith (lit "/") path then walk 0 (split (Chr "/") path)
      else Raise OSError
  end.

Definition has_entry (e : pystr) (d : list entry) : bool :=
  existsb (fun kv => str_eqb (fst kv) e) d.

Definition get_entry (e : pystr) (d : list entry) : option (list byte) :=
  option_map snd (find (fun kv => str_eqb (fst kv) e) d).

(** Replace the content of [e], or add [e] at the end of the listing. *)
Fixpoint set_entry (e : pystr) (data : list byte) (d : list entry)
    : list entry :=
  match d with
  | [] => [(e, data)]
  | (k, v) :: d' =>
      if str_eqb k e then (k, data) :: d' else (k, v) :: set_entry e data d'
  end.

Definition del_entry (e : pystr) (d : list entry) : list entry :=
  filter (fun kv => negb (str_eqb (fst kv) e)) d.

(** [os.path.exists(path)]: false also when the path cannot be converted
    or resolved. *)
Definition path_exists (path : pystr) : M bool :=
  fun st =>
    (Return
       match resolve path, efivars st with
       | Return (File e), Some d => has_entry e d
       | Return Dir, Some _ => true
       | _, _ => false
       end, st).

(** [os.listdir(path)] *)
Definition listdir (path : pystr) : M (list pystr) :=
  fun st =>
    match resolve path, efivars st with
    | Return Dir, Some d => (Return (map fst d), st)
    | Raise e, _ => (Raise e, st)
    | _, _ => (Raise OSError, st)
    end.

(** [open(path, 'rb').read()] *)
Definition read_file (path : pystr) : M (list byte) :=
  fun st =>
    match resolve path, efivars st with
    | Return (File e), Some d =>
        match get_entry e d with
        | Some data => (Return data, st)
        | None => (Raise OSError, st)
        end
    | Raise e, _ => (Raise e, st)
    | _, _ => (Raise OSError, st)
    end.

(** [open(path, 'wb')]: the file is created, or truncated when it exists.
    The file object is represented by the entry it writes to. *)
Definition open_wb (path : pystr) : M pystr :=
  fun st =>
    match resolve path, efivars st with
    | Return (File e), Some d =>
        (Return e, mkState (Some (set_entry e [] d)) (stdout st))
    | Raise e, _ => (Raise e, st)
    | _, _ => (Raise OSError, st)
    end.

(** [fd.write(data)] *)
Definition write (fd : pystr) (data : list byte) : M unit :=
  fun st =>
    match efivars st with
    | Some d =>
        match get_entry fd d with
        | Some old =>
            (Return tt, mkState (Some (set_entry fd (old ++ data) d)) (stdout st))
        | None => (Raise OSError, st)
        end
    | None => (Raise OSError, st)
    end.

(** [os.remove(path)] *)
Definition remove (path : pystr) : M unit :=
  fun st =>
    match resolve path, efivars st with
    | Return (File e), Some d =>
        if has_entry e d
        then (Return tt, mkState (Some (del_entry e d)) (stdout st))
        else (Raise OSError, st)
    | Raise e, _ => (Raise e, st)
    | _, _ => (Raise OSError, st)
    end.

End os.

(** ** class [UefiVariable] *)

Definition EFI_VAR_MAX_BUFFER_SIZE : N := 1024 * 1024.

Definition ERROR_ENVVAR_NOT_FOUND : Z := 203.

Definition dquote : pychar := Chr "034".

(** [try: body except ValueError: handler]; [UnicodeEncodeError] is a
    [ValueError]. *)
Definition try_except_ValueError {A} (body handler : outcome A) : outcome A :=
  match body with
  | Raise ValueError | Raise UnicodeEncodeError => handler
  | other => other
  end.

(** [x = m; k], for a step [m] that neither reads nor changes the state. *)
Definition and_then {A B} (m : outcome A) (k : A -> outcome B) : outcome B :=
  match m with
  | Return a => k a
  | Raise e => Raise e
  end.

(** The name and GUID part of the loop body of [GetUefiAllVarNames]
    (lines 97-105): the last five segments of the entry are the GUID, the
    segments before them the name. *)
Definition decode_entry (var : pystr) : outcome (list byte * pystr) :=
  (* efivarfs stores vars as NAME-GUID *)
  let split_string := split hyphen var in
  and_then
    (try_except_ValueError
       (* GUID is last 5 elements of split_string *)
       (and_then (uuid.UUID_of_hex (join hyphen (slice_last 5 split_string)))
          (fun u => Return (uuid.bytes_le u)))
       (Raise (Exception (lit "Could not parse " ++ dquote :: var ++ [dquote]))))
    (fun guid =>
       (* the other part is the name *)
       let name := join hyphen (slice_but_last 5 split_string) in
       Return (guid, name)).

Section UefiVariable.

Variable py : interp.

(** Function to get variable: a tuple of error code and variable data. *)
Definition GetUefiVar (name : pystr) (guid : uuid.UUID)
    : M (Z * option (list byte) * option pystr) :=
  (* success *)
  let err := 0 in
  (* the variable name is VariableName-Guid *)
  let path := lit "/sys/firmware/efi/efivars/" ++ name
                ++ (hyphen :: uuid.str guid) in
  found <- os.path_exists path ;;
  if negb found then
    let err := ERROR_ENVVAR_NOT_FOUND in
    ret (err, None, None)
  else
    let efi_var := create_string_buffer EFI_VAR_MAX_BUFFER_SIZE in
    efi_var <- os.read_file path ;;
    ret (err, Some efi_var, None).

(** The body of the first loop of [GetUefiAllVarNames] (line 91). *)
Definition add_length (var : pystr) (length : N) : M N :=
  encoded <- lift (str_encode var) ;;
  ret (length + (getsizeof_int_type py + getsizeof_bytes py encoded))%N.

(** The total buffer length the first loop arrives at when every name
    encodes. *)
Definition total_length (vars : list pystr) : N :=
  fold_left
    (fun length var =>
       length + (getsizeof_int_type py + getsizeof_bytes py (encode_utf16 var)))%N
    vars 0%N.

(** The body of the second loop of [GetUefiAllVarNames]; the loop's
    variables are [offset] and the buffer [efi_var_names]. *)
Definition write_record (var : pystr) (acc : N * list byte)
    : M (N * list byte) :=
  let '(offset, efi_var_names) := acc in
  '(guid, name) <- lift (decode_entry var) ;;
  name <- lift (str_encode name) ;;
  (* NextEntryOffset *)
  print (lit "<class 'bytearray'>") ;;
  print (lit "<class 'type'>") ;;
  print (lit "<class 'bytes'>") ;;
  packed <- lift (struct_pack_I
                    (Z.of_N (getsizeof_int_type py + getsizeof_bytes py name
                             + getsizeof_bytearray py guid))) ;;
  efi_var_names <- lift (buffer_setitem efi_var_names offset packed) ;;
  let offset := (offset + getsizeof_int_type py)%N in
  (* VendorGuid: the module [struct] has no attribute [packed] *)
  packed <- raise AttributeError ;;
  efi_var_names <- lift (buffer_setitem efi_var_names offset packed) ;;
  let offset := (offset + getsizeof_bytearray py guid)%N in
  (* Name *)
  efi_var_names <- lift (buffer_setitem efi_var_names offset name) ;;
  let offset := (offset + getsizeof_bytes py name)%N in
  ret (offset, efi_var_names).

(** Function to get all variable names: a tuple of error code and variable
    names byte array. *)
Definition GetUefiAllVarNames : M (Z * option (list byte)) :=
  (* success *)
  let status := 0 in
  let path := lit "/sys/firmware/efi/efivars" in
  found <- os.path_exists path ;;
  if negb found then
    let status := ERROR_ENVVAR_NOT_FOUND in
    ret (status, None)
  else
    vars <- os.listdir path ;;
    (* get the total buffer length, converting to unicode *)
    let length := 0%N in
    let offset := 0%N in
    length <- for_each vars add_length length ;;
    let efi_var_names := create_string_buffer length in
    '(offset, efi_var_names) <- for_each vars write_record (offset, efi_var_names) ;;
    ret (status, Some efi_var_names).

(** Function to set variable; [var = None] deletes it. *)
Definition SetUefiVar (name : pystr) (guid : uuid.UUID)
    (var : option (list byte)) (attrs : option Z) : M Z :=
  let var_len := 0%nat in
  let success := 0 in (* Fail *)
  let path := lit "/sys/firmware/efi/efivars/" ++ name ++ lit "-"
                ++ uuid.str guid in
  match var with
  | None =>
      (* we are deleting the variable *)
      found <- os.path_exists path ;;
      if found then
        os.remove path ;;
        let success := 1 in (* expect non-zero success *)
        ret success
      else ret success
  | Some var =>
      let var_len := length var in
      let attrs := match attrs with None => 7 | Some attrs => attrs end in
      fd <- os.open_wb path ;;
      (* var data is attribute (UINT32) followed by data *)
      packed <- lift (struct_pack_I attrs) ;;
      let packed := packed ++ var in
      os.write fd packed ;;
      ret 1
  end.

End UefiVariable.

(** *** The helper [CreateBuffer] *)

(** The values [CreateBuffer] tells apart with [isinstance]. *)
Inductive pyvalue : Type :=
| VStr (s : pystr)
| VInt (i : Z)
| VBytes (b : list byte)
| VNone.

(** What [CreateBuffer] can raise. *)
Inductive raised : Type :=
| NameError (name : pystr)
| TypeError_of (init : pyvalue).

(** The names the module binds (lines 8-19): its imports, its constant and
    its class.  From [ctypes] only [create_string_buffer] is imported. *)
Definition module_names : list pystr :=
  [lit "os"; lit "uuid"; lit "sys"; lit "struct"; lit "create_string_buffer";
   lit "EFI_VAR_MAX_BUFFER_SIZE"; lit "UefiVariable"].

Section CreateBuffer.

(** Run-time objects, the object a bound name refers to, and what
    [(ctype * size)()] followed by the optional [buf.value = init] gives
    for an object [ctype]. *)
Variable object : Type.
Variable global : pystr -> object.
Variable array_buffer : object -> Z -> option pystr -> raised + list byte.

(** Loading a name that is no builtin, as [c_char] is none. *)
Definition load_name (name : pystr) : raised + object :=
  if existsb (str_eqb name) module_names then inr (global name)
  else inl (NameError name).

(** Helper function to create buffer for var read/write. *)
Definition CreateBuffer (init : pyvalue) (size : option Z)
    : raised + list byte :=
  match init with
  | VStr s =>
      let size :=
        match size with
        | None => Z.of_nat (length s) + 1
        | Some size => size
        end in
      match load_name (lit "c_char") with
      | inl e => inl e
      | inr c_char => array_buffer c_char size (Some s)
      end
  | VInt i =>
      match load_name (lit "c_char") with
      | inl e => inl e
      | inr c_char => array_buffer c_char i None
      end
  | _ => inl (TypeError_of init)
  end.

End CreateBuffer.

(** ** Notions used to state the properties *)

(** The entry name that [GetUefiVar] (line 53) and [SetUefiVar] (line 132)
    compose below the store directory. *)
Definition entry_name (name : pystr) (guid : uuid.UUID) : pystr :=
  name ++ hyphen :: uuid.str guid.

(** The path of a variable's file. *)
Definition var_path (name : pystr) (guid : uuid.UUID) : pystr :=
  lit "/sys/firmware/efi/efivars/" ++ entry_name name guid.

(** Whether the file of a variable exists: what [os.path.exists] answers
    for [var_path]. *)
Definition stored (name : pystr) (guid : uuid.UUID) (st : state) : bool :=
  match os.resolve (var_path name guid), efivars st with
  | Return (os.File e), Some d => os.has_entry e d
  | Return os.Dir, Some _ => true
  | _, _ => false
  end.

(** The record length of the specification: the offset field, the GUID and
    two bytes per UTF-16 code unit of the name. *)
Definition spec_record_length (name : pystr) : N :=
  (4 + 16 + 2 * N.of_nat (length name))%N.

(** The variable every example uses: [Test] under the EFI global variable
    GUID 8be4df61-93ca-11d2-aa0d-00e098032b8c. *)
Definition efi_global : uuid.UUID :=
  uuid.mkUUID 185951065806061208864679216937405983628.

Definition test_entry : pystr :=
  lit "Test-8be4df61-93ca-11d2-aa0d-00e098032b8c".

(** The three lines the loop body of [GetUefiAllVarNames] prints before it
    packs the offset. *)
Definition printed (out : list pystr) : list pystr :=
  ((out ++ [lit "<class 'bytearray'>"]) ++ [lit "<class 'type'>"])
    ++ [lit "<class 'bytes'>"].

(** The content of the file of the store with the entry name [e]. *)
Definition file_content (e : pystr) (st : state) : option (list byte) :=
  match efivars st with
  | Some d => os.get_entry e d
  | None => None
  end.

(** The content of the file that the path of the entry [e] names, if it
    names one and the file exists. *)
Definition lookup (e : pystr) (st : state) : option (list byte) :=
  match os.resolve (lit "/sys/firmware/efi/efivars/" ++ e) with
  | Return (os.File e') => file_content e' st
  | _ => None
  end.

(** A name every listed file has when its bytes are UTF-8: it encodes to
    UTF-16. *)
Definition encodes (s : pystr) : Prop := exists b, str_encode s = Return b.

(** A character that is one non-null byte in a file name and no slash. *)
Definition portable (c : pychar) : bool :=
  match c with
  | Chr a => (0 <? code c) && (code c <? 128) && negb (chr_eqb c (Chr "/"))
  | Esc _ => false
  end.

(** Whether a component can be the last one of a path to a directory. *)
Definition special (c : pystr) : bool :=
  os.is_blank c || str_eqb c (lit "..") || existsb (str_eqb c) os.ancestors.

(** The number a byte string stands for, least significant byte first. *)
Definition byte_value (b : byte) : Z := Z.of_N (Byte.to_N b).

Fixpoint le_value (bs : list byte) : Z :=
  match bs with
  | [] => 0
  | b :: bs' => byte_value b + 256 * le_value bs'
  end.

(** The digits behind [hex_fixed]. *)
Fixpoint hex_digits (w : nat) (n : Z) : list nat :=
  match w with
  | O => []
  | S w' => hex_digits w' (n / 16) ++ [Z.to_nat (n mod 16)]
  end.

(** The value of a digit string, most significant digit first. *)
Definition digits_value (ds : list nat) (acc : Z) : Z :=
  fold_left (fun a d => a * 16 + Z.of_nat d) ds acc.

(** The characters of a canonical GUID string. *)
Definition is_canon (c : pychar) : bool :=
  in_chars c (lit "0123456789abcdef-").

Definition is_hex (c : pychar) : bool := in_chars c hexchars.

Arguments hex_digit : simpl never.

(** * Properties *)

(** ** Characters *)

Lemma chr_eqb_refl (c : pychar) : chr_eqb c c = true.
Proof.
  destruct c; simpl; [apply Ascii.eqb_refl|now apply Byte.byte_dec_lb].
Qed.

Lemma chr_eqb_eq (x y : pychar) : chr_eqb x y = true <-> x = y.
Proof.
  split; [|intros ->; apply chr_eqb_refl].
  destruct x, y; simpl; try discriminate; intros H.
  - apply Ascii.eqb_eq in H. now subst.
  - apply Byte.byte_dec_bl in H. now subst.
Qed.

Lemma chr_eqb_spec (x y : pychar) : reflect (x = y) (chr_eqb x y).
Proof.
  destruct (chr_eqb x y) eqn:E; constructor.
  - now apply chr_eqb_eq.
  - intros H. apply chr_eqb_eq in H. congruence.
Qed.

Lemma chr_eqb_sym (x y : pychar) : chr_eqb x y = chr_eqb y x.
Proof.
  destruct (chr_eqb_spec x y) as [->|H]; [now rewrite chr_eqb_refl|].
  destruct (chr_eqb_spec y x) as [->|_]; congruence.
Qed.


(** ** Strings *)

Lemma str_eqb_refl (a : pystr) : str_eqb a a = true.
Proof.
  induction a as [|c a IH]; simpl; [reflexivity|].
  now rewrite chr_eqb_refl.
Qed.

Lemma str_eqb_eq (a b : pystr) : str_eqb a b = true <-> a = b.
Proof.
  split; [|intros ->; apply str_eqb_refl].
  revert b; induction a as [|x a IH]; intros [|y b]; simpl; try easy.
  intros H; apply andb_true_iff in H as [Hc Hs].
  apply chr_eqb_eq in Hc; subst; f_equal; auto.
Qed.

Lemma str_eqb_neq (a b : pystr) : str_eqb a b = false <-> a <> b.
Proof.
  destruct (str_eqb a b) eqn:E.
  - apply str_eqb_eq in E; split; [discriminate | congruence].
  - split; [|reflexivity]; intros _ Hab.
    apply str_eqb_eq in Hab; congruence.
Qed.

Section Split.

Variable sep : pychar.

Lemma split_not_nil (s : pystr) : split sep s <> [].
Proof.
  destruct s as [|c s]; simpl; [discriminate|].
  destruct (chr_eqb c sep); [discriminate|].
  destruct (split sep s); discriminate.
Qed.

Lemma split_no_sep (s : pystr) : ~ In sep s -> split sep s = [s].
Proof.
  induction s as [|c s IH]; simpl; intros H; [reflexivity|].
  destruct (chr_eqb_spec c sep) as [->|_]; [tauto|].
  rewrite IH by tauto; reflexivity.
Qed.

Lemma split_app_sep (a b : pystr) :
  split sep (a ++ sep :: b) = split sep a ++ split sep b.
Proof.
  induction a as [|c a IH]; simpl.
  - now rewrite chr_eqb_refl.
  - destruct (chr_eqb c sep); rewrite IH; [reflexivity|].
    destruct (split sep a) eqn:E; [now apply split_not_nil in E|reflexivity].
Qed.

Lemma join_cons (p : pystr) (ps : list pystr) :
  ps <> [] -> join sep (p :: ps) = p ++ sep :: join sep ps.
Proof. destruct ps; [congruence|reflexivity]. Qed.

Lemma join_split (s : pystr) : join sep (split sep s) = s.
Proof.
  induction s as [|c s IH]; [reflexivity|].
  cbn [split].
  destruct (chr_eqb_spec c sep) as [->|_].
  - rewrite join_cons by apply split_not_nil. now rewrite IH.
  - destruct (split sep s) as [|seg segs] eqn:E; [now apply split_not_nil in E|].
    destruct segs; simpl in *; now rewrite <- IH.
Qed.

(** Five separator-free segments after a name are the last five segments
    of the whole. *)
Lemma split_name_five (name s1 s2 s3 s4 s5 : pystr) :
  ~ In sep s1 -> ~ In sep s2 -> ~ In sep s3 -> ~ In sep s4 -> ~ In sep s5 ->
  split sep (name ++ sep :: s1 ++ sep :: s2 ++ sep :: s3 ++ sep :: s4
               ++ sep :: s5)
  = split sep name ++ [s1; s2; s3; s4; s5].
Proof.
  intros H1 H2 H3 H4 H5.
  rewrite !split_app_sep.
  now rewrite (split_no_sep s1), (split_no_sep s2), (split_no_sep s3),
    (split_no_sep s4), (split_no_sep s5).
Qed.

End Split.

Lemma slice_last_app {A} (l tl : list A) :
  slice_last (length tl) (l ++ tl) = tl.
Proof.
  unfold slice_last. rewrite length_app.
  replace (length l + length tl - length tl)%nat with (length l + 0)%nat by lia.
  now rewrite skipn_app, Nat.add_0_r, skipn_all, Nat.sub_diag.
Qed.

Lemma slice_but_last_app {A} (l tl : list A) :
  slice_but_last (length tl) (l ++ tl) = l.
Proof.
  unfold slice_but_last. rewrite length_app.
  replace (length l + length tl - length tl)%nat with (length l) by lia.
  now rewrite firstn_app, Nat.sub_diag, firstn_all, app_nil_r.
Qed.

(** ** Hexadecimal digits *)

Ltac hex_cases d :=
  do 16 (destruct d as [|d]; [reflexivity|]); exfalso; lia.

Lemma digit_value16_hex (d : nat) :
  (d < 16)%nat -> digit_value16 (hex_digit d) = Some (Z.of_nat d).
Proof. intros Hd; hex_cases d. Qed.

Lemma hex_is_hex (d : nat) : (d < 16)%nat -> is_hex (hex_digit d) = true.
Proof. intros Hd; hex_cases d. Qed.

Lemma hex_not_space (d : nat) :
  (d < 16)%nat -> Py_ISSPACE (hex_digit d) = false.
Proof. intros Hd; hex_cases d. Qed.

Lemma hex_is_ascii (d : nat) :
  (d < 16)%nat -> (code (hex_digit d) <? 128) = true.
Proof. intros Hd; hex_cases d. Qed.

(** A hexadecimal digit is none of the other characters the parsers look
    for. *)
Lemma is_hex_neq (c x : pychar) :
  is_hex c = true -> is_hex x = false -> chr_eqb c x = false.
Proof.
  intros Hc Hx. destruct (chr_eqb_spec c x) as [->|]; congruence.
Qed.

Lemma hex_fixed_digits (w : nat) (n : Z) :
  hex_fixed w n = map hex_digit (hex_digits w n).
Proof.
  revert n; induction w as [|w IH]; intros n; simpl; [reflexivity|].
  now rewrite IH, map_app.
Qed.

Lemma hex_digits_length (w : nat) (n : Z) : length (hex_digits w n) = w.
Proof.
  revert n; induction w as [|w IH]; intros n; simpl; [reflexivity|].
  rewrite length_app, IH; simpl; lia.
Qed.

Lemma hex_digits_lt (w : nat) (n : Z) :
  Forall (fun d => (d < 16)%nat) (hex_digits w n).
Proof.
  revert n; induction w as [|w IH]; intros n; simpl; [constructor|].
  apply Forall_app; split; [apply IH|].
  constructor; [|constructor].
  pose proof (Z.mod_pos_bound n 16 ltac:(lia)). lia.
Qed.

Lemma digits_value_hex_digits (w : nat) (n acc : Z) :
  digits_value (hex_digits w n) acc
  = acc * 16 ^ Z.of_nat w + n mod 16 ^ Z.of_nat w.
Proof.
  unfold digits_value.
  revert n acc; induction w as [|w IH]; intros n acc.
  - simpl. rewrite Z.mod_1_r. lia.
  - cbn [hex_digits]. rewrite fold_left_app, IH. cbn [fold_left].
    rewrite Nat2Z.inj_succ, Z.pow_succ_r by lia.
    pose proof (Z.mod_pos_bound n 16 ltac:(lia)).
    rewrite Z2Nat.id by lia.
    rewrite (Z.rem_mul_r n 16 (16 ^ Z.of_nat w)) by lia.
    lia.
Qed.

Lemma hex_fixed_length (w : nat) (n : Z) : length (hex_fixed w n) = w.
Proof. now rewrite hex_fixed_digits, length_map, hex_digits_length. Qed.

Lemma hex_fixed_is_hex (w : nat) (n : Z) :
  Forall (fun c => is_hex c = true) (hex_fixed w n).
Proof.
  rewrite hex_fixed_digits. apply Forall_map.
  eapply Forall_impl; [|apply hex_digits_lt].
  intros d Hd; now apply hex_is_hex.
Qed.

(** ** [int(s, 16)] on a string of digits *)

Lemma scan_digits16_hex (ds : list nat) (rest : pystr) (pu : bool)
    (k : nat) (acc : Z) :
  Forall (fun d => (d < 16)%nat) ds ->
  scan_digits16 (map hex_digit ds ++ rest) pu k acc
  = scan_digits16 rest (match ds with [] => pu | _ :: _ => false end)
      (length ds + k) (digits_value ds acc).
Proof.
  intros H; revert pu k acc.
  induction H as [|d ds Hd Hds IH]; intros pu k acc; [reflexivity|].
  cbn [map app scan_digits16].
  rewrite (is_hex_neq (hex_digit d) (Chr "_")) by (auto using hex_is_hex).
  rewrite digit_value16_hex by assumption.
  rewrite IH. cbn [length digits_value fold_left].
  replace (length ds + S k)%nat with (S (length ds) + k)%nat by lia.
  destruct ds; reflexivity.
Qed.

Lemma is_ascii_hex (ds : list nat) :
  Forall (fun d => (d < 16)%nat) ds -> is_ascii (map hex_digit ds) = true.
Proof.
  unfold is_ascii; induction 1 as [|d ds Hd _ IH]; [reflexivity|].
  cbn [map forallb]. now rewrite hex_is_ascii, IH.
Qed.

Lemma int16_hex (ds : list nat) :
  ds <> [] -> Forall (fun d => (d < 16)%nat) ds ->
  int16 (map hex_digit ds) = Some (digits_value ds 0).
Proof.
  intros Hne H. unfold int16, transform_space_to_ascii.
  rewrite is_ascii_hex by assumption.
  destruct ds as [|d ds]; [congruence|]. clear Hne.
  inversion H as [|? ? Hd Hds]; subst.
  assert (Hskip : skip_space (map hex_digit (d :: ds)) = map hex_digit (d :: ds)).
  { cbn [map skip_space]. now rewrite hex_not_space. }
  rewrite Hskip.
  assert (Hsign : skip_sign (map hex_digit (d :: ds)) = (1, map hex_digit (d :: ds))).
  { cbn [map skip_sign].
    rewrite (is_hex_neq (hex_digit d) (Chr "+")), (is_hex_neq (hex_digit d) (Chr "-"))
      by (auto using hex_is_hex). reflexivity. }
  rewrite Hsign.
  assert (Hpre : skip_prefix16 (map hex_digit (d :: ds)) = map hex_digit (d :: ds)).
  { destruct ds as [|d' ds']; [reflexivity|].
    inversion Hds as [|? ? Hd' _]; subst.
    cbn [map skip_prefix16].
    rewrite (is_hex_neq (hex_digit d') (Chr "x")), (is_hex_neq (hex_digit d') (Chr "X"))
      by (auto using hex_is_hex).
    now rewrite andb_false_r. }
  rewrite Hpre.
  assert (Hus : startswith [Chr "_"] (map hex_digit (d :: ds)) = false).
  { cbn [map startswith]. rewrite chr_eqb_sym.
    rewrite (is_hex_neq (hex_digit d) (Chr "_")) by (auto using hex_is_hex).
    reflexivity. }
  rewrite Hus.
  rewrite <- (app_nil_r (map hex_digit (d :: ds))).
  rewrite scan_digits16_hex by assumption.
  cbn [scan_digits16 length Nat.add skip_space].
  now rewrite Z.mul_1_l.
Qed.

Lemma int16_hex_fixed (w : nat) (n : Z) :
  (0 < w)%nat -> 0 <= n < 16 ^ Z.of_nat w -> int16 (hex_fixed w n) = Some n.
Proof.
  intros Hw Hn. rewrite hex_fixed_digits, int16_hex.
  - rewrite digits_value_hex_digits, Z.mod_small by assumption.
    f_equal; lia.
  - intros E. apply (f_equal (@length nat)) in E.
    rewrite hex_digits_length in E. simpl in E; lia.
  - apply hex_digits_lt.
Qed.

(** ** Canonical GUID strings *)

Lemma Forall_firstn {A} (P : A -> Prop) (n : nat) (l : list A) :
  Forall P l -> Forall P (firstn n l).
Proof.
  intros H. rewrite <- (firstn_skipn n l) in H.
  now apply Forall_app in H.
Qed.

Lemma Forall_skipn {A} (P : A -> Prop) (n : nat) (l : list A) :
  Forall P l -> Forall P (skipn n l).
Proof.
  intros H. rewrite <- (firstn_skipn n l) in H.
  now apply Forall_app in H.
Qed.

Lemma Forall_slice {A} (P : A -> Prop) (a b : nat) (l : list A) :
  Forall P l -> Forall P (slice a b l).
Proof. intros H. now apply Forall_firstn, Forall_skipn. Qed.

Lemma slice_skipn {A} (a b : nat) (h : list A) :
  (a <= b)%nat -> slice a b h ++ skipn b h = skipn a h.
Proof.
  intros Hab. unfold slice.
  replace (skipn b h) with (skipn (b - a) (skipn a h))
    by (rewrite skipn_skipn; f_equal; lia).
  apply firstn_skipn.
Qed.

Lemma slices_recombine {A} (h : list A) :
  slice 0 8 h ++ slice 8 12 h ++ slice 12 16 h ++ slice 16 20 h ++ skipn 20 h
  = h.
Proof.
  rewrite (slice_skipn 16 20), (slice_skipn 12 16), (slice_skipn 8 12),
    (slice_skipn 0 8) by lia.
  reflexivity.
Qed.

Lemma is_hex_canon (c : pychar) : is_hex c = true -> is_canon c = true.
Proof.
  unfold is_hex, is_canon, in_chars. intros H.
  change (lit "0123456789abcdef-") with (hexchars ++ [hyphen]).
  now rewrite existsb_app, H.
Qed.

Lemma is_hex_not_hyphen (s : pystr) :
  Forall (fun c => is_hex c = true) s -> ~ In hyphen s.
Proof.
  intros H Hin. rewrite Forall_forall in H.
  now specialize (H _ Hin).
Qed.

(** [replace(old, '')] leaves a string alone that lacks the first character
    of [old]. *)
Lemma remove_sub_absent (x : pychar) (old s : pystr) :
  Forall (fun c => chr_eqb x c = false) s -> remove_sub (x :: old) s 0 = s.
Proof.
  induction 1 as [|c s Hc _ IH]; [reflexivity|].
  cbn [remove_sub startswith]. now rewrite Hc, IH.
Qed.

Lemma canon_lacks (x : pychar) (s : pystr) :
  is_canon x = false ->
  Forall (fun c => is_canon c = true) s ->
  Forall (fun c => chr_eqb x c = false) s.
Proof.
  intros Hx H. eapply Forall_impl; [|exact H].
  intros c Hc. destruct (chr_eqb_spec x c) as [->|]; congruence.
Qed.

Lemma lstrip_absent (chars s : pystr) :
  Forall (fun c => in_chars c chars = false) s -> lstrip chars s = s.
Proof. destruct 1 as [|c s Hc _]; simpl; [reflexivity|now rewrite Hc]. Qed.

Lemma rstrip_absent (chars s : pystr) :
  Forall (fun c => in_chars c chars = false) s -> rstrip chars s = s.
Proof.
  induction 1 as [|c s Hc _ IH]; [reflexivity|].
  cbn [rstrip]. rewrite IH, Hc. now destruct s.
Qed.

Lemma strip_canon (s : pystr) :
  Forall (fun c => is_canon c = true) s -> strip (lit "{}") s = s.
Proof.
  intros H.
  assert (Hb : Forall (fun c => in_chars c (lit "{}") = false) s).
  { eapply Forall_impl; [|exact H]. intros c Hc.
    unfold in_chars. change (lit "{}") with [Chr "{"; Chr "}"]. cbn [existsb].
    destruct (chr_eqb_spec c (Chr "{")) as [->|]; [discriminate|].
    destruct (chr_eqb_spec c (Chr "}")) as [->|]; [discriminate|reflexivity]. }
  unfold strip. now rewrite lstrip_absent, rstrip_absent.
Qed.

Lemma remove_hyphen_filter (s : pystr) :
  replace_empty (lit "-") s = filter (fun c => negb (chr_eqb hyphen c)) s.
Proof.
  unfold replace_empty. change (lit "-") with [hyphen].
  induction s as [|c s IH]; [reflexivity|].
  cbn [remove_sub startswith filter length Nat.sub].
  rewrite andb_true_r, IH. now destruct (chr_eqb hyphen c).
Qed.

Lemma filter_hyphen_hex (s : pystr) :
  Forall (fun c => is_hex c = true) s ->
  filter (fun c => negb (chr_eqb hyphen c)) s = s.
Proof.
  induction 1 as [|c s Hc _ IH]; [reflexivity|].
  cbn [filter]. rewrite IH.
  destruct (chr_eqb_spec hyphen c) as [<-|]; [discriminate|reflexivity].
Qed.

Section Canonical.

Variable u : uuid.UUID.

Let hex := hex_fixed 32 (uuid.int u).

Lemma str_all_canon : Forall (fun c => is_canon c = true) (uuid.str u).
Proof.
  assert (H : Forall (fun c => is_canon c = true) hex).
  { eapply Forall_impl; [|apply hex_fixed_is_hex]. apply is_hex_canon. }
  unfold uuid.str. fold hex.
  repeat (apply Forall_app; split; [now apply Forall_slice|];
          constructor; [reflexivity|]).
  now apply Forall_skipn.
Qed.

Lemma str_without_hyphens :
  replace_empty (lit "-") (uuid.str u) = hex.
Proof.
  pose proof (hex_fixed_is_hex 32 (uuid.int u)) as H. fold hex in H.
  rewrite remove_hyphen_filter. unfold uuid.str. fold hex.
  repeat (rewrite filter_app; cbn [filter];
          rewrite chr_eqb_refl; cbn [negb]).
  rewrite !filter_hyphen_hex
    by (try apply Forall_slice; try apply Forall_skipn; exact H).
  apply slices_recombine.
Qed.

Lemma str_cleaned :
  replace_empty (lit "-")
    (strip (lit "{}")
       (replace_empty (lit "uuid:") (replace_empty (lit "urn:") (uuid.str u))))
  = hex.
Proof.
  pose proof str_all_canon as Hc.
  assert (Hu : forall old, replace_empty (Chr "u" :: old) (uuid.str u) = uuid.str u).
  { intros old. apply remove_sub_absent, canon_lacks; [reflexivity|exact Hc]. }
  change (lit "urn:") with (Chr "u" :: lit "rn:").
  change (lit "uuid:") with (Chr "u" :: lit "uid:").
  rewrite !Hu, strip_canon by exact Hc.
  apply str_without_hyphens.
Qed.

(** Parsing the canonical form of a UUID gives the UUID back. *)
Lemma UUID_of_str : uuid.valid u -> uuid.UUID_of_hex (uuid.str u) = Return u.
Proof.
  intros Hv. unfold uuid.UUID_of_hex. cbv zeta.
  rewrite str_cleaned.
  unfold hex. rewrite hex_fixed_length. cbn [Nat.eqb negb].
  unfold uuid.valid in Hv.
  rewrite int16_hex_fixed
    by (try lia; change (16 ^ Z.of_nat 32) with (2 ^ 128); lia).
  replace (0 <=? uuid.int u) with true by (symmetry; apply Z.leb_le; lia).
  replace (uuid.int u <? 2 ^ 128) with true by (symmetry; apply Z.ltb_lt; lia).
  cbn [andb negb]. now destruct u.
Qed.

(** The five groups of the canonical form. *)
Lemma str_groups :
  uuid.str u
  = join hyphen [slice 0 8 hex; slice 8 12 hex; slice 12 16 hex;
                 slice 16 20 hex; skipn 20 hex].
Proof. reflexivity. Qed.

Lemma groups_hyphen_free :
  Forall (fun s => ~ In hyphen s)
    [slice 0 8 hex; slice 8 12 hex; slice 12 16 hex; slice 16 20 hex;
     skipn 20 hex].
Proof.
  pose proof (hex_fixed_is_hex 32 (uuid.int u)) as H. fold hex in H.
  repeat constructor; apply is_hex_not_hyphen;
    try apply Forall_slice; try apply Forall_skipn; exact H.
Qed.

End Canonical.

(** ** Paths *)

Lemma byte_value_of_Z (z : Z) : byte_value (byte_of_Z z) = z mod 256.
Proof.
  unfold byte_value, byte_of_Z.
  pose proof (Z.mod_pos_bound z 256 ltac:(lia)) as Hb.
  destruct (Byte.of_N (Z.to_N (z mod 256))) as [b|] eqn:E.
  - apply Byte.to_of_N in E. rewrite E. lia.
  - apply Byte.of_N_None_iff in E. lia.
Qed.

Lemma fsencode_app (a b : pystr) (ba bb : list byte) :
  os.fsencode a = Return ba -> os.fsencode b = Return bb ->
  os.fsencode (a ++ b) = Return (ba ++ bb).
Proof.
  revert ba; induction a as [|c a IH]; intros ba Ha Hb; simpl in *.
  - injection Ha as <-. exact Hb.
  - destruct (os.utf8 c) as [bc|]; [|discriminate Ha].
    destruct (os.fsencode a) as [bs|e]; [|discriminate Ha].
    injection Ha as <-. rewrite (IH bs eq_refl Hb). now rewrite app_assoc.
Qed.

(** A portable character is one byte of a file name, and not the null
    byte. *)
Lemma utf8_portable (c : pychar) :
  portable c = true ->
  exists b, os.utf8 c = Some [b] /\ Byte.eqb x00 b = false.
Proof.
  destruct c as [a|b]; [|discriminate]. unfold portable, os.utf8.
  intros H. apply andb_true_iff in H as [H _].
  apply andb_true_iff in H as [H0 H1]. rewrite H1.
  eexists. split; [reflexivity|].
  destruct (Byte.eqb x00 (byte_of_Z (code (Chr a)))) eqn:E; [|reflexivity].
  apply Byte.byte_dec_bl in E.
  pose proof (byte_value_of_Z (code (Chr a))) as Hv. rewrite <- E in Hv.
  apply Z.ltb_lt in H0, H1. rewrite Z.mod_small in Hv by lia.
  change (byte_value x00) with 0 in Hv. lia.
Qed.

Lemma fsencode_portable (s : pystr) :
  Forall (fun c => portable c = true) s ->
  exists bs,
    os.fsencode s = Return bs /\ length bs = length s
    /\ existsb (Byte.eqb x00) bs = false.
Proof.
  induction 1 as [|c s Hc _ (bs & Hbs & Hlen & Hnul)].
  - exists []. repeat split.
  - destruct (utf8_portable c Hc) as (b & Hb & Hz).
    exists (b :: bs). cbn [os.fsencode]. rewrite Hb, Hbs. cbn [app].
    split; [reflexivity|]. split; [cbn [length]; lia|].
    cbn [existsb]. now rewrite Hz, Hnul.
Qed.

Lemma code_bounds (a : ascii) : 0 <= code (Chr a) < 256.
Proof.
  unfold code. pose proof (nat_ascii_bounded a). lia.
Qed.

Lemma ascii_of_code (a : ascii) :
  ascii_of_nat (Z.to_nat (code (Chr a))) = a.
Proof.
  unfold code. rewrite Nat2Z.id. apply ascii_nat_embedding.
Qed.

(** Decoding the bytes of a character gives the character back. *)
Lemma fsdecode_utf8 (a : ascii) (b rest : list byte) :
  os.utf8 (Chr a) = Some b ->
  os.fsdecode (b ++ rest) = Chr a :: os.fsdecode rest.
Proof.
  pose proof (code_bounds a) as Hc. unfold os.utf8. cbv zeta.
  destruct (Z.ltb_spec (code (Chr a)) 128) as [Hlt|Hge]; intros H;
    apply (f_equal (fun o => match o with Some x => x | None => [] end)) in H;
    cbv beta iota in H; subst b; cbn [app os.fsdecode]; cbv zeta;
    repeat match goal with
           | |- context [Z.of_N (Byte.to_N (byte_of_Z ?z))] =>
               change (Z.of_N (Byte.to_N (byte_of_Z z)))
                 with (byte_value (byte_of_Z z));
               rewrite (byte_value_of_Z z)
           end;
    change (Z.of_nat (nat_of_ascii a)) with (code (Chr a)).
  - rewrite Z.mod_small by lia.
    destruct (Z.ltb_spec (code (Chr a)) 128); [|lia].
    now rewrite ascii_of_code.
  - assert (Hq : code (Chr a) / 64 = 2 \/ code (Chr a) / 64 = 3).
    { assert (2 <= code (Chr a) / 64 < 4); [|lia].
      split; [apply Z.div_le_lower_bound; lia
             |apply Z.div_lt_upper_bound; lia]. }
    pose proof (Z.mod_pos_bound (code (Chr a)) 64 ltac:(lia)) as Hm.
    pose proof (Z.div_mod (code (Chr a)) 64 ltac:(lia)) as Hdm.
    rewrite (Z.mod_small (192 + _)) by lia.
    rewrite (Z.mod_small (128 + _)) by lia.
    destruct (Z.ltb_spec (192 + code (Chr a) / 64) 128); [lia|].
    replace ((192 + code (Chr a) / 64 =? 194) || (192 + code (Chr a) / 64 =? 195))
      with true
      by (destruct Hq as [-> | ->]; reflexivity).
    destruct (Z.leb_spec 128 (128 + code (Chr a) mod 64)); [|lia].
    destruct (Z.ltb_spec (128 + code (Chr a) mod 64) 192); [|lia].
    cbn [andb].
    replace ((192 + code (Chr a) / 64 - 192) * 64
             + (128 + code (Chr a) mod 64 - 128))
      with (code (Chr a)) by lia.
    now rewrite ascii_of_code.
Qed.

(** A string without surrogate is the listed name of the file it names. *)
Lemma canon_plain (s : pystr) :
  existsb is_surrogate s = false -> os.canon s = s.
Proof.
  intros H.
  assert (G : exists bs, os.fsencode s = Return bs /\ os.fsdecode bs = s).
  { induction s as [|[a|b] s IH]; [exists []; split; reflexivity| |discriminate H].
    destruct (IH H) as (bs & Hbs & Hd).
    destruct (os.utf8 (Chr a)) as [bc|] eqn:Hu.
    - exists (bc ++ bs). cbn [os.fsencode]. rewrite Hu, Hbs.
      split; [reflexivity|]. rewrite (fsdecode_utf8 a bc bs Hu). now rewrite Hd.
    - unfold os.utf8 in Hu. cbv zeta in Hu.
      destruct (code (Chr a) <? 128); discriminate Hu. }
  destruct G as (bs & Hbs & Hd). unfold os.canon. now rewrite Hbs.
Qed.

Lemma portable_plain (s : pystr) :
  Forall (fun c => portable c = true) s -> existsb is_surrogate s = false.
Proof.
  induction 1 as [|[a|b] s Hc _ IH]; [reflexivity|exact IH|discriminate Hc].
Qed.

Lemma portable_no_slash (s : pystr) :
  Forall (fun c => portable c = true) s -> ~ In (Chr "/") s.
Proof.
  intros H Hin. rewrite Forall_forall in H. specialize (H _ Hin).
  discriminate H.
Qed.

(** The walk down to the store. *)
Lemma walk_to_store (comps : list pystr) :
  os.walk 0 (split (Chr "/") os.efivars_dir ++ comps) = os.walk 4 comps.
Proof. reflexivity. Qed.

Lemma split_entry_path (e : pystr) :
  split (Chr "/") (lit "/sys/firmware/efi/efivars/" ++ e)
  = split (Chr "/") os.efivars_dir ++ split (Chr "/") e.
Proof.
  change (lit "/sys/firmware/efi/efivars/" ++ e)
    with (os.efivars_dir ++ Chr "/" :: e).
  apply split_app_sep.
Qed.

(** A name of portable characters, of at most NAME_MAX bytes and none of
    the empty name, [.] and [..], names the file of that name. *)
Lemma resolve_portable (e : pystr) :
  Forall (fun c => portable c = true) e ->
  (2 < length e <= 255)%nat ->
  os.resolve (lit "/sys/firmware/efi/efivars/" ++ e) = Return (os.File e).
Proof.
  intros Hp Hlen.
  destruct (fsencode_portable e Hp) as (bs & Hbs & Hl & Hnul).
  assert (Hpre : os.fsencode (lit "/sys/firmware/efi/efivars/")
                 = Return (map byte_of_Z
                             (map code (lit "/sys/firmware/efi/efivars/"))))
    by reflexivity.
  unfold os.resolve. rewrite (fsencode_app _ _ _ _ Hpre Hbs).
  rewrite existsb_app, Hnul.
  replace (existsb (Byte.eqb x00)
             (map byte_of_Z (map code (lit "/sys/firmware/efi/efivars/"))))
    with false by reflexivity.
  cbn [orb]. rewrite length_app, Hl.
  replace (length (map byte_of_Z (map code (lit "/sys/firmware/efi/efivars/"))))
    with 26%nat by reflexivity.
  destruct (Nat.ltb_spec 4095 (26 + length e)); [lia|].
  replace (startswith (lit "/") (lit "/sys/firmware/efi/efivars/" ++ e))
    with true by reflexivity.
  rewrite split_entry_path, (split_no_sep _ e (portable_no_slash e Hp)).
  rewrite walk_to_store. cbn [os.walk].
  assert (Hb : os.is_blank e = false).
  { unfold os.is_blank.
    destruct (str_eqb e []) eqn:E1; [apply str_eqb_eq in E1; subst; simpl in *; lia|].
    destruct (str_eqb e (lit ".")) eqn:E2; [|reflexivity].
    apply str_eqb_eq in E2; subst; simpl in *; lia. }
  assert (Hd : str_eqb e (lit "..") = false).
  { destruct (str_eqb e (lit "..")) eqn:E; [|reflexivity].
    apply str_eqb_eq in E; subst; simpl in *; lia. }
  rewrite Hb, Hd. unfold os.fs_length. rewrite Hbs, Hl.
  destruct (Nat.ltb_spec 255 (length e)); [lia|].
  cbn. now rewrite (canon_plain e (portable_plain e Hp)).
Qed.

(** The last component of a path that ends in a text without slash. *)
Lemma split_app_tail (sep : pychar) (a b : pystr) :
  ~ In sep b ->
  exists pre l,
    split sep a = pre ++ [l] /\ split sep (a ++ b) = pre ++ [l ++ b].
Proof.
  intros Hb. induction a as [|c a (pre & l & Ha & Hab)].
  - exists [], []. split; [reflexivity|]. now apply split_no_sep.
  - cbn [split app]. rewrite Ha, Hab.
    destruct (chr_eqb c sep).
    + exists ([] :: pre), l. split; reflexivity.
    + destruct pre as [|p pre].
      * exists [], (c :: l). split; reflexivity.
      * exists ((c :: p) :: pre), l. split; reflexivity.
Qed.

Lemma walk_dir_last (pre : list pystr) (l : pystr) (depth : nat) :
  os.walk depth (pre ++ [l]) = Return os.Dir -> special l = true.
Proof.
  unfold special.
  revert depth; induction pre as [|c pre IH]; intros depth; cbn [app os.walk].
  - destruct (os.is_blank l); [reflexivity|].
    destruct (str_eqb l (lit "..")); [reflexivity|].
    destruct (Nat.ltb 255 (os.fs_length l)); [discriminate|].
    destruct (Nat.ltb_spec depth 4); [|discriminate].
    destruct (str_eqb l (nth depth os.ancestors [])) eqn:E; [|discriminate].
    intros _. apply str_eqb_eq in E. cbn [orb].
    apply existsb_exists. exists l. split; [|apply str_eqb_refl].
    rewrite E. apply nth_In. simpl. lia.
  - destruct (os.is_blank c); [apply IH|].
    destruct (str_eqb c (lit "..")); [apply IH|].
    destruct (Nat.ltb 255 (os.fs_length c)); [discriminate|].
    destruct (Nat.ltb depth 4).
    + destruct (str_eqb c (nth depth os.ancestors [])); [apply IH|discriminate].
    + destruct pre; discriminate.
Qed.

Lemma special_short (c : pystr) : special c = true -> (length c <= 8)%nat.
Proof.
  unfold special, os.is_blank, os.ancestors. cbn [existsb].
  intros H.
  repeat (apply orb_true_iff in H as [H|H]);
    try discriminate H; apply str_eqb_eq in H; subst; simpl; lia.
Qed.

(** The path of a variable never names the store directory. *)
Lemma resolve_var_path (name : pystr) (guid : uuid.UUID) (n : os.node) :
  os.resolve (var_path name guid) = Return n -> exists e, n = os.File e.
Proof.
  destruct n as [e|]; [eauto|]. intros H. exfalso.
  unfold os.resolve in H.
  destruct (os.fsencode _); [|discriminate H].
  destruct (existsb _ _); [discriminate H|].
  destruct (Nat.ltb _ _); [discriminate H|].
  destruct (startswith _ _); [|discriminate H].
  assert (Hg : ~ In (Chr "/") (hyphen :: uuid.str guid)).
  { intros [E|Hin]; [discriminate E|].
    pose proof (str_all_canon guid) as Hc. rewrite Forall_forall in Hc.
    specialize (Hc _ Hin). discriminate Hc. }
  unfold var_path, entry_name in H. rewrite app_assoc in H.
  destruct (split_app_tail (Chr "/")
              (lit "/sys/firmware/efi/efivars/" ++ name)
              (hyphen :: uuid.str guid) Hg) as (pre & l & _ & Hs).
  rewrite Hs in H. apply walk_dir_last, special_short in H.
  rewrite length_app in H. cbn [length] in H.
  assert (Hl : length (uuid.str guid) = 36%nat).
  { unfold uuid.str, slice. cbv zeta.
    pose proof (hex_fixed_length 32 (uuid.int guid)) as Hh.
    repeat (rewrite length_app; cbn [length]).
    rewrite !length_firstn, !length_skipn, Hh. reflexivity. }
  lia.
Qed.

(** The path [GetUefiVar] composes (line 53) and the path [SetUefiVar]
    composes (line 132) are the same path. *)
Lemma composed_paths (name : pystr) (guid : uuid.UUID) :
  lit "/sys/firmware/efi/efivars/" ++ name ++ (hyphen :: uuid.str guid)
  = var_path name guid
  /\ lit "/sys/firmware/efi/efivars/" ++ name ++ lit "-" ++ uuid.str guid
     = var_path name guid.
Proof. split; reflexivity. Qed.

Lemma path_exists_var (name : pystr) (guid : uuid.UUID) (st : state) :
  os.path_exists (var_path name guid) st = (Return (stored name guid st), st).
Proof. reflexivity. Qed.

(** When the file of a variable exists, its path names a file of the
    store. *)
Lemma stored_file (name : pystr) (guid : uuid.UUID) (st : state) :
  stored name guid st = true ->
  exists e d,
    os.resolve (var_path name guid) = Return (os.File e)
    /\ efivars st = Some d /\ os.has_entry e d = true.
Proof.
  unfold stored. intros H.
  destruct (os.resolve (var_path name guid)) as [n|err] eqn:Hr;
    [|discriminate H].
  destruct (resolve_var_path name guid n Hr) as [e ->].
  destruct (efivars st) as [d|]; [|discriminate H]. eauto.
Qed.
(** ** The store *)

Section Store.

Variable e : pystr.

Lemma get_set_entry (data : list byte) (d : list entry) :
  os.get_entry e (os.set_entry e data d) = Some data.
Proof.
  unfold os.get_entry.
  induction d as [|[k v] d IH]; simpl.
  - now rewrite str_eqb_refl.
  - destruct (str_eqb k e) eqn:E; simpl; rewrite E; [reflexivity|exact IH].
Qed.

Lemma set_set_entry (data1 data2 : list byte) (d : list entry) :
  os.set_entry e data2 (os.set_entry e data1 d) = os.set_entry e data2 d.
Proof.
  induction d as [|[k v] d IH]; simpl.
  - now rewrite str_eqb_refl.
  - destruct (str_eqb k e) eqn:E; simpl; rewrite E; [reflexivity|].
    now rewrite IH.
Qed.

Lemma has_del_entry (d : list entry) :
  os.has_entry e (os.del_entry e d) = false.
Proof.
  unfold os.has_entry, os.del_entry.
  induction d as [|[k v] d IH]; simpl; [reflexivity|].
  destruct (str_eqb k e) eqn:E; simpl; [exact IH|].
  now rewrite E.
Qed.

Lemma has_get_entry (d : list entry) :
  os.has_entry e d = true -> exists data, os.get_entry e d = Some data.
Proof.
  unfold os.has_entry, os.get_entry.
  induction d as [|[k v] d IH]; simpl; [discriminate|].
  destruct (str_eqb k e); simpl; eauto.
Qed.

Lemma not_has_get_entry (d : list entry) :
  os.has_entry e d = false -> os.get_entry e d = None.
Proof.
  unfold os.has_entry, os.get_entry.
  induction d as [|[k v] d IH]; simpl; [reflexivity|].
  destruct (str_eqb k e); simpl; [discriminate|exact IH].
Qed.

Lemma has_set_entry (data : list byte) (d : list entry) :
  os.has_entry e (os.set_entry e data d) = true.
Proof.
  unfold os.has_entry.
  induction d as [|[k v] d IH]; simpl.
  - now rewrite str_eqb_refl.
  - destruct (str_eqb k e) eqn:E; simpl; rewrite E; [reflexivity|exact IH].
Qed.

End Store.

Section Frame.

Variables e e' : pystr.
Hypothesis Hne : e' <> e.

Lemma get_set_other (data : list byte) (d : list entry) :
  os.get_entry e' (os.set_entry e data d) = os.get_entry e' d.
Proof.
  unfold os.get_entry.
  induction d as [|[k v] d IH]; simpl.
  - replace (str_eqb e e') with false; [reflexivity|].
    symmetry; apply str_eqb_neq; congruence.
  - destruct (str_eqb k e) eqn:E; simpl.
    + apply str_eqb_eq in E; subst k.
      replace (str_eqb e e') with false; [reflexivity|].
      symmetry; apply str_eqb_neq; congruence.
    + destruct (str_eqb k e'); [reflexivity|exact IH].
Qed.

Lemma get_del_other (d : list entry) :
  os.get_entry e' (os.del_entry e d) = os.get_entry e' d.
Proof.
  unfold os.get_entry, os.del_entry.
  induction d as [|[k v] d IH]; simpl; [reflexivity|].
  destruct (str_eqb k e) eqn:E; simpl.
  - apply str_eqb_eq in E; subst k.
    replace (str_eqb e e') with false; [exact IH|].
    symmetry; apply str_eqb_neq; congruence.
  - destruct (str_eqb k e'); [reflexivity|exact IH].
Qed.

End Frame.

Lemma get_has_entry (e : pystr) (d : list entry) (data : list byte) :
  os.get_entry e d = Some data -> os.has_entry e d = true.
Proof.
  intros H. destruct (os.has_entry e d) eqn:E; [reflexivity|].
  rewrite (not_has_get_entry e d E) in H. discriminate H.
Qed.

Lemma canon_portable (c : pychar) : is_canon c = true -> portable c = true.
Proof.
  unfold is_canon, in_chars. intros H.
  apply existsb_exists in H as (x & Hin & Hx).
  apply chr_eqb_eq in Hx. subst x.
  assert (Hall : forallb portable (lit "0123456789abcdef-") = true)
    by reflexivity.
  rewrite forallb_forall in Hall. now apply Hall.
Qed.

Lemma str_length (guid : uuid.UUID) : length (uuid.str guid) = 36%nat.
Proof.
  unfold uuid.str, slice. cbv zeta.
  pose proof (hex_fixed_length 32 (uuid.int guid)) as Hl.
  repeat (rewrite length_app; cbn [length]).
  rewrite !length_firstn, !length_skipn, Hl. reflexivity.
Qed.

(** The entry the empty name is composed to is a plain file name. *)
Lemma resolve_empty_name (guid : uuid.UUID) :
  os.resolve (var_path [] guid) = Return (os.File (hyphen :: uuid.str guid)).
Proof.
  apply resolve_portable.
  - constructor; [reflexivity|].
    eapply Forall_impl; [|apply str_all_canon]. apply canon_portable.
  - cbn [length]. rewrite str_length. lia.
Qed.

(** ** [GetUefiVar] and [SetUefiVar] *)

(** What [GetUefiVar] returns, in every state: the content of the file
    when it exists, the not-found code otherwise.  The state is left as it
    was. *)
Lemma GetUefiVar_result (name : pystr) (guid : uuid.UUID) (st : state) :
  GetUefiVar name guid st
  = (Return
       (if stored name guid st
        then (0, lookup (entry_name name guid) st, None)
        else (ERROR_ENVVAR_NOT_FOUND, None, None)), st).
Proof.
  unfold GetUefiVar.
  change (lit "/sys/firmware/efi/efivars/" ++ name ++ hyphen :: uuid.str guid)
    with (var_path name guid).
  cbv zeta. unfold bind. rewrite path_exists_var.
  destruct (stored name guid st) eqn:Hs; [|reflexivity].
  destruct (stored_file name guid st Hs) as (e & d & Hr & Hd & He).
  cbn [negb]. unfold os.read_file, lookup, file_content.
  change (lit "/sys/firmware/efi/efivars/" ++ entry_name name guid)
    with (var_path name guid).
  rewrite Hr, Hd.
  destruct (has_get_entry e d He) as [data ->]. reflexivity.
Qed.

(** What a successful [open(path, 'wb')] tells. *)
Lemma open_wb_inv (path fd : pystr) (st st1 : state) :
  os.open_wb path st = (Return fd, st1) ->
  exists d,
    os.resolve path = Return (os.File fd) /\ efivars st = Some d
    /\ st1 = mkState (Some (os.set_entry fd [] d)) (stdout st).
Proof.
  unfold os.open_wb.
  destruct (os.resolve path) as [[e|]|err]; destruct (efivars st) as [d|];
    try discriminate.
  intros [= <- <-]. eauto.
Qed.

(** The write path of [SetUefiVar] when the path names a file of an
    existing store. *)
Lemma SetUefiVar_write (name : pystr) (guid : uuid.UUID) (var : list byte)
    (attrs : option Z) (packed : list byte) (e : pystr) (d : list entry)
    (out : list pystr) :
  os.resolve (var_path name guid) = Return (os.File e) ->
  struct_pack_I (match attrs with None => 7 | Some a => a end) = Return packed ->
  SetUefiVar name guid (Some var) attrs (mkState (Some d) out)
  = (Return 1, mkState (Some (os.set_entry e (packed ++ var) d)) out).
Proof.
  intros Hr Hp. unfold SetUefiVar.
  change (lit "/sys/firmware/efi/efivars/" ++ name ++ lit "-" ++ uuid.str guid)
    with (var_path name guid).
  cbv zeta. unfold bind, os.open_wb. cbn [efivars stdout]. rewrite Hr.
  unfold lift. rewrite Hp.
  unfold os.write. cbn [efivars stdout].
  now rewrite get_set_entry, set_set_entry.
Qed.

Lemma SetUefiVar_pack_fails (name : pystr) (guid : uuid.UUID) (var : list byte)
    (attrs : option Z) (err : exn) (e : pystr) (d : list entry)
    (out : list pystr) :
  os.resolve (var_path name guid) = Return (os.File e) ->
  struct_pack_I (match attrs with None => 7 | Some a => a end) = Raise err ->
  SetUefiVar name guid (Some var) attrs (mkState (Some d) out)
  = (Raise err, mkState (Some (os.set_entry e [] d)) out).
Proof.
  intros Hr Hp. unfold SetUefiVar.
  change (lit "/sys/firmware/efi/efivars/" ++ name ++ lit "-" ++ uuid.str guid)
    with (var_path name guid).
  cbv zeta. unfold bind, os.open_wb. cbn [efivars stdout]. rewrite Hr.
  unfold lift. now rewrite Hp.
Qed.

(** When the file cannot be opened, the write ends there. *)
Lemma SetUefiVar_open_fails (name : pystr) (guid : uuid.UUID) (var : list byte)
    (attrs : option Z) (err : exn) (st st1 : state) :
  os.open_wb (var_path name guid) st = (Raise err, st1) ->
  SetUefiVar name guid (Some var) attrs st = (Raise err, st1).
Proof.
  intros Ho. unfold SetUefiVar.
  change (lit "/sys/firmware/efi/efivars/" ++ name ++ lit "-" ++ uuid.str guid)
    with (var_path name guid).
  cbv zeta. unfold bind. now rewrite Ho.
Qed.

Lemma open_wb_fails_state (path : pystr) (err : exn) (st st1 : state) :
  os.open_wb path st = (Raise err, st1) -> st1 = st.
Proof.
  unfold os.open_wb.
  destruct (os.resolve path) as [[e|]|err']; destruct (efivars st) as [d|];
    intros [= _ <-]; reflexivity.
Qed.

(** The delete path of [SetUefiVar]. *)
Lemma SetUefiVar_delete_absent (name : pystr) (guid : uuid.UUID)
    (attrs : option Z) (st : state) :
  stored name guid st = false ->
  SetUefiVar name guid None attrs st = (Return 0, st).
Proof.
  intros Hs. unfold SetUefiVar.
  change (lit "/sys/firmware/efi/efivars/" ++ name ++ lit "-" ++ uuid.str guid)
    with (var_path name guid).
  cbv zeta. unfold bind. now rewrite path_exists_var, Hs.
Qed.

Lemma SetUefiVar_delete_present (name : pystr) (guid : uuid.UUID)
    (attrs : option Z) (st : state) (e : pystr) (d : list entry) :
  os.resolve (var_path name guid) = Return (os.File e) ->
  efivars st = Some d -> os.has_entry e d = true ->
  SetUefiVar name guid None attrs st
  = (Return 1, mkState (Some (os.del_entry e d)) (stdout st)).
Proof.
  intros Hr Hd He. unfold SetUefiVar.
  change (lit "/sys/firmware/efi/efivars/" ++ name ++ lit "-" ++ uuid.str guid)
    with (var_path name guid).
  cbv zeta. unfold bind. rewrite path_exists_var.
  unfold stored. rewrite Hr, Hd, He.
  unfold os.remove. now rewrite Hr, Hd, He.
Qed.

Lemma stored_after_delete (name : pystr) (guid : uuid.UUID) (e : pystr)
    (d : list entry) (out : list pystr) :
  os.resolve (var_path name guid) = Return (os.File e) ->
  stored name guid (mkState (Some (os.del_entry e d)) out) = false.
Proof.
  intros Hr. unfold stored. rewrite Hr. cbn [efivars]. apply has_del_entry.
Qed.

(** A sufficient condition for the open to succeed: the store directory
    is there and the name is made of portable characters, short enough
    for the entry name to fit NAME_MAX. *)
Lemma open_wb_portable (name : pystr) (guid : uuid.UUID) (d : list entry)
    (out : list pystr) :
  Forall (fun c => portable c = true) name ->
  (length name <= 218)%nat ->
  os.open_wb (var_path name guid) (mkState (Some d) out)
  = (Return (entry_name name guid),
     mkState (Some (os.set_entry (entry_name name guid) [] d)) out).
Proof.
  intros Hp Hlen. unfold os.open_wb, var_path.
  rewrite resolve_portable; [reflexivity| |].
  - unfold entry_name. apply Forall_app. split; [exact Hp|].
    constructor; [reflexivity|].
    eapply Forall_impl; [|apply str_all_canon]. apply canon_portable.
  - unfold entry_name. rewrite length_app. cbn [length].
    rewrite str_length. lia.
Qed.



(** The scenario of the specification: writing the payload 01 02 for
    [Test] leaves 07 00 00 00 01 02 in the file. *)
Example SetUefiVar_Test :
  SetUefiVar (lit "Test") efi_global (Some [x01; x02]) (Some 7)
    (mkState (Some []) [])
  = (Return 1,
     mkState (Some [(test_entry, [x07; x00; x00; x00; x01; x02])]) []).
Proof. reflexivity. Qed.

(** The write is not guarded against names that are no file name: with a
    slash in the name the open fails and nothing is written. *)
Example SetUefiVar_slash :
  SetUefiVar (lit "a/b") efi_global (Some [x01; x02]) None
    (mkState (Some []) [])
  = (Raise OSError, mkState (Some []) []).
Proof. reflexivity. Qed.

(** C7. For every name and GUID whose composed path does not exist,
    [GetUefiVar] returns the code 0xCB with no data and no detail; it does
    not raise and leaves the state as it was. *)
Theorem GetUefiVar_not_found (name : pystr) (guid : uuid.UUID) (st : state) :
  os.path_exists (var_path name guid) st = (Return false, st) ->
  GetUefiVar name guid st = (Return (203, None, None), st).
Proof.
  intros H. rewrite path_exists_var in H.
  rewrite GetUefiVar_result.
  now replace (stored name guid st) with false by congruence.
Qed.

Lemma GetUefiVar_not_found_witness :
  os.path_exists (var_path (lit "Test") efi_global) (mkState (Some []) [])
  = (Return false, mkState (Some []) [])
  /\ GetUefiVar (lit "Test") efi_global (mkState (Some []) [])
     = (Return (203, None, None), mkState (Some []) []).
Proof.
  split; [reflexivity|].
  apply (GetUefiVar_not_found (lit "Test") efi_global (mkState (Some []) [])).
  reflexivity.
Defined.

(** C8. [SetUefiVar] with no payload: when the file exists it is removed
    and 1 is returned, and a second call right after returns 0 and changes
    nothing; when no file exists 0 is returned and nothing changes.  No
    call raises. *)
Theorem SetUefiVar_delete_twice (name : pystr) (guid : uuid.UUID)
    (attrs : option Z) (st : state) :
  (os.path_exists (var_path name guid) st = (Return true, st) ->
   exists st1,
     SetUefiVar name guid None attrs st = (Return 1, st1)
     /\ os.path_exists (var_path name guid) st1 = (Return false, st1)
     /\ SetUefiVar name guid None attrs st1 = (Return 0, st1))
  /\ (os.path_exists (var_path name guid) st = (Return false, st) ->
      SetUefiVar name guid None attrs st = (Return 0, st)).
Proof.
  rewrite path_exists_var. split; intros H.
  - assert (Hs : stored name guid st = true) by congruence.
    destruct (stored_file name guid st Hs) as (e & d & Hr & Hd & He).
    eexists.
    rewrite (SetUefiVar_delete_present name guid attrs st e d Hr Hd He).
    split; [reflexivity|].
    rewrite path_exists_var, (stored_after_delete name guid e d _ Hr).
    split; [reflexivity|].
    apply SetUefiVar_delete_absent. now apply stored_after_delete.
  - apply SetUefiVar_delete_absent. congruence.
Qed.

Lemma SetUefiVar_delete_twice_witness :
  let st := mkState (Some [(test_entry, [x07; x00; x00; x00; x01])]) [] in
  os.path_exists (var_path (lit "Test") efi_global) st = (Return true, st)
  /\ exists st1,
       SetUefiVar (lit "Test") efi_global None None st = (Return 1, st1)
       /\ os.path_exists (var_path (lit "Test") efi_global) st1
          = (Return false, st1)
       /\ SetUefiVar (lit "Test") efi_global None None st1 = (Return 0, st1).
Proof.
  cbv zeta. split; [reflexivity|].
  apply (SetUefiVar_delete_twice (lit "Test") efi_global None
           (mkState (Some [(test_entry, [x07; x00; x00; x00; x01])]) [])).
  reflexivity.
Defined.

(** C9, as the code has it.  No identity is rejected: for the empty name
    the composed entry is the hyphen followed by the canonical GUID, and
    both accessors work on that entry as on any other. *)
Theorem empty_name_is_composed (guid : uuid.UUID) (payload : list byte)
    (d : list entry) (out : list pystr) :
  var_path [] guid = lit "/sys/firmware/efi/efivars/-" ++ uuid.str guid
  /\ SetUefiVar [] guid (Some payload) None (mkState (Some d) out)
     = (Return 1,
        mkState (Some (os.set_entry (hyphen :: uuid.str guid)
                         ([x07; x00; x00; x00] ++ payload) d)) out)
  /\ GetUefiVar [] guid (mkState (Some d) out)
     = (Return
          (match os.get_entry (hyphen :: uuid.str guid) d with
           | Some data => (0, Some data, None)
           | None => (203, None, None)
           end), mkState (Some d) out).
Proof.
  pose proof (resolve_empty_name guid) as Hr.
  split; [reflexivity|]. split.
  - exact (SetUefiVar_write [] guid payload None [x07; x00; x00; x00] _ d out
             Hr eq_refl).
  - rewrite GetUefiVar_result. unfold stored, lookup, file_content.
    change (lit "/sys/firmware/efi/efivars/" ++ entry_name [] guid)
      with (var_path [] guid).
    rewrite Hr. cbn [efivars].
    destruct (os.has_entry (hyphen :: uuid.str guid) d) eqn:E.
    + now destruct (has_get_entry _ _ E) as [data ->].
    + now rewrite (not_has_get_entry _ _ E).
Qed.

(** C9 as stated fails: with the empty name [SetUefiVar] raises nothing,
    returns 1 and creates the entry [-8be4df61-93ca-11d2-aa0d-00e098032b8c]. *)
Lemma empty_name_not_rejected :
  SetUefiVar [] efi_global (Some [x01]) None (mkState (Some []) [])
  = (Return 1,
     mkState (Some [(lit "-8be4df61-93ca-11d2-aa0d-00e098032b8c",
                     [x07; x00; x00; x00; x01])]) [])
  /\ ~ (exists e st',
          SetUefiVar [] efi_global (Some [x01]) None (mkState (Some []) [])
          = (Raise e, st')).
Proof.
  assert (E : SetUefiVar [] efi_global (Some [x01]) None (mkState (Some []) [])
              = (Return 1,
                 mkState (Some [(lit "-8be4df61-93ca-11d2-aa0d-00e098032b8c",
                                 [x07; x00; x00; x00; x01])]) []))
    by reflexivity.
  split; [exact E|].
  intros (e & st' & H). rewrite E in H. discriminate H.
Qed.

(** ** Decoding an entry name *)

(** Where the GUID groups and the name segments of an entry lie. *)
Lemma decode_segments (name s1 s2 s3 s4 s5 : pystr) :
  ~ In hyphen s1 -> ~ In hyphen s2 -> ~ In hyphen s3 -> ~ In hyphen s4 ->
  ~ In hyphen s5 ->
  let var := name ++ hyphen :: s1 ++ hyphen :: s2 ++ hyphen :: s3
               ++ hyphen :: s4 ++ hyphen :: s5 in
  slice_last 5 (split hyphen var) = [s1; s2; s3; s4; s5]
  /\ slice_but_last 5 (split hyphen var) = split hyphen name.
Proof.
  intros H1 H2 H3 H4 H5. cbv zeta.
  rewrite split_name_five by assumption.
  change 5%nat with (length [s1; s2; s3; s4; s5]).
  now rewrite slice_last_app, slice_but_last_app.
Qed.

Lemma decode_entry_of_guid (var : pystr) (u : uuid.UUID) :
  uuid.UUID_of_hex (join hyphen (slice_last 5 (split hyphen var))) = Return u ->
  decode_entry var
  = Return (uuid.bytes_le u, join hyphen (slice_but_last 5 (split hyphen var))).
Proof. intros H. unfold decode_entry. cbv zeta. now rewrite H. Qed.

Lemma decode_entry_malformed (var : pystr) :
  uuid.UUID_of_hex (join hyphen (slice_last 5 (split hyphen var)))
  = Raise ValueError ->
  decode_entry var
  = Raise (Exception (lit "Could not parse " ++ dquote :: var ++ [dquote])).
Proof. intros H. unfold decode_entry. cbv zeta. now rewrite H. Qed.

(** C3. For every non-empty name without an embedded null and every valid
    GUID, decoding the composed entry name gives back the GUID, from the
    last five hyphen-delimited segments, and the name, from the segments
    before them. *)
Theorem codec_round_trip (name : pystr) (guid : uuid.UUID) :
  name <> [] -> ~ In zero name -> uuid.valid guid ->
  let var := entry_name name guid in
  uuid.UUID_of_hex (join hyphen (slice_last 5 (split hyphen var))) = Return guid
  /\ join hyphen (slice_but_last 5 (split hyphen var)) = name
  /\ decode_entry var = Return (uuid.bytes_le guid, name).
Proof.
  intros _ _ Hv. cbv zeta.
  pose proof (groups_hyphen_free guid) as Hg. cbv zeta in Hg.
  apply Forall_cons_iff in Hg as [H1 Hg].
  apply Forall_cons_iff in Hg as [H2 Hg].
  apply Forall_cons_iff in Hg as [H3 Hg].
  apply Forall_cons_iff in Hg as [H4 Hg].
  apply Forall_cons_iff in Hg as [H5 _].
  destruct (decode_segments name _ _ _ _ _ H1 H2 H3 H4 H5) as [Hlast Hfirst].
  set (var := entry_name name guid).
  assert (Hu : uuid.UUID_of_hex (join hyphen (slice_last 5 (split hyphen var)))
               = Return guid).
  { unfold var, entry_name. rewrite str_groups. cbn [join].
    rewrite Hlast.
    change (uuid.UUID_of_hex (uuid.str guid) = Return guid).
    now apply UUID_of_str. }
  assert (Hn : join hyphen (slice_but_last 5 (split hyphen var)) = name).
  { unfold var, entry_name. rewrite str_groups. cbn [join].
    rewrite Hfirst. apply join_split. }
  repeat split; [exact Hu|exact Hn|].
  now rewrite (decode_entry_of_guid _ _ Hu), Hn.
Qed.

Lemma codec_round_trip_witness :
  lit "Test" <> [] /\ ~ In zero (lit "Test") /\ uuid.valid efi_global
  /\ decode_entry (entry_name (lit "Test") efi_global)
     = Return (uuid.bytes_le efi_global, lit "Test").
Proof.
  assert (H1 : lit "Test" <> []) by discriminate.
  assert (H2 : ~ In zero (lit "Test")).
  { simpl. intros [H|[H|[H|[H|[]]]]]; discriminate H. }
  assert (H3 : uuid.valid efi_global).
  { unfold uuid.valid, efi_global; simpl; lia. }
  split; [exact H1|]. split; [exact H2|]. split; [exact H3|].
  exact (proj2 (proj2 (codec_round_trip (lit "Test") efi_global H1 H2 H3))).
Defined.

(** C4. Whatever hyphens the name holds, when five hyphen-free segments
    follow it, the last five segments of the entry are exactly those five
    and the rest rejoined with hyphens is exactly the name; and when
    [uuid.UUID] reads the five as a GUID, the decode step returns that
    GUID with that name. *)
Theorem hyphenated_name_decodes (name s1 s2 s3 s4 s5 : pystr) :
  ~ In hyphen s1 -> ~ In hyphen s2 -> ~ In hyphen s3 -> ~ In hyphen s4 ->
  ~ In hyphen s5 ->
  let var := name ++ hyphen :: s1 ++ hyphen :: s2 ++ hyphen :: s3
               ++ hyphen :: s4 ++ hyphen :: s5 in
  slice_last 5 (split hyphen var) = [s1; s2; s3; s4; s5]
  /\ join hyphen (slice_but_last 5 (split hyphen var)) = name
  /\ (forall u,
        uuid.UUID_of_hex (join hyphen [s1; s2; s3; s4; s5]) = Return u ->
        decode_entry var = Return (uuid.bytes_le u, name)).
Proof.
  intros H1 H2 H3 H4 H5. cbv zeta.
  destruct (decode_segments name s1 s2 s3 s4 s5 H1 H2 H3 H4 H5) as [Hl Hf].
  cbv zeta in Hl, Hf.
  assert (Hn : join hyphen
                 (slice_but_last 5
                    (split hyphen
                       (name ++ hyphen :: s1 ++ hyphen :: s2 ++ hyphen :: s3
                          ++ hyphen :: s4 ++ hyphen :: s5))) = name)
    by (rewrite Hf; apply join_split).
  split; [exact Hl|]. split; [exact Hn|].
  intros u Hu. rewrite (decode_entry_of_guid _ u); [now rewrite Hn|].
  now rewrite Hl.
Qed.

Lemma hyphenated_name_decodes_witness :
  slice_last 5
    (split hyphen (lit "my-var-name-8be4df61-93ca-11d2-aa0d-00e098032b8c"))
  = [lit "8be4df61"; lit "93ca"; lit "11d2"; lit "aa0d"; lit "00e098032b8c"]
  /\ join hyphen
       (slice_but_last 5
          (split hyphen (lit "my-var-name-8be4df61-93ca-11d2-aa0d-00e098032b8c")))
     = lit "my-var-name"
  /\ decode_entry (lit "my-var-name-8be4df61-93ca-11d2-aa0d-00e098032b8c")
     = Return (uuid.bytes_le efi_global, lit "my-var-name").
Proof.
  assert (H : forall s, forallb (fun c => negb (chr_eqb c hyphen)) s = true ->
                        ~ In hyphen s).
  { intros s Hs Hin. rewrite forallb_forall in Hs. specialize (Hs _ Hin).
    rewrite chr_eqb_refl in Hs. discriminate Hs. }
  destruct (hyphenated_name_decodes (lit "my-var-name") (lit "8be4df61")
              (lit "93ca") (lit "11d2") (lit "aa0d") (lit "00e098032b8c")
              (H (lit "8be4df61") eq_refl) (H (lit "93ca") eq_refl)
              (H (lit "11d2") eq_refl) (H (lit "aa0d") eq_refl)
              (H (lit "00e098032b8c") eq_refl)) as (Hl & Hn & Hd).
  split; [exact Hl|]. split; [exact Hn|]. exact (Hd efi_global eq_refl).
Defined.

(** The hyphenated example of the specification, through the whole decode
    step. *)
Example decode_my_var_name :
  decode_entry (lit "my-var-name-8be4df61-93ca-11d2-aa0d-00e098032b8c")
  = Return (uuid.bytes_le efi_global, lit "my-var-name").
Proof. reflexivity. Qed.

(** ** Characters of a decoded name *)

Lemma join_app (sep : pychar) (l1 l2 : list pystr) :
  l1 <> [] -> l2 <> [] ->
  join sep (l1 ++ l2) = join sep l1 ++ sep :: join sep l2.
Proof.
  intros H1 H2. induction l1 as [|x l1 IH]; [congruence|].
  destruct l1 as [|y l1].
  - cbn [app]. now rewrite join_cons.
  - change ((x :: y :: l1) ++ l2) with (x :: ((y :: l1) ++ l2)).
    rewrite (join_cons sep x ((y :: l1) ++ l2)) by discriminate.
    rewrite IH by discriminate.
    rewrite (join_cons sep x (y :: l1)) by discriminate.
    now rewrite <- app_assoc.
Qed.

Lemma In_join_firstn (sep c : pychar) (k : nat) (l : list pystr) :
  In c (join sep (firstn k l)) -> In c (join sep l).
Proof.
  intros H.
  destruct (firstn k l) as [|x xs] eqn:Ef; [contradiction|].
  destruct (skipn k l) as [|y ys] eqn:Es.
  - rewrite <- (firstn_skipn k l), Ef, Es, app_nil_r. exact H.
  - rewrite <- (firstn_skipn k l), Ef, Es, join_app by discriminate.
    apply in_or_app. now left.
Qed.

(** The name that the decode step gives holds characters of the entry
    only, so it encodes when the entry does. *)
Lemma decoded_name_encodes (var : pystr) (guid : list byte) (name : pystr) :
  decode_entry var = Return (guid, name) -> encodes var -> encodes name.
Proof.
  intros Hd [b Hb]. unfold encodes, str_encode in *.
  destruct (existsb is_surrogate var) eqn:Ev; [discriminate Hb|].
  destruct (existsb is_surrogate name) eqn:En; [|eauto].
  exfalso. apply existsb_exists in En as (c & Hin & Hc).
  assert (Hname : name = join hyphen (slice_but_last 5 (split hyphen var))).
  { unfold decode_entry, and_then, try_except_ValueError in Hd.
    cbv zeta in Hd.
    destruct (uuid.UUID_of_hex _) as [u|[]]; try discriminate Hd.
    now injection Hd as _ <-. }
  rewrite Hname in Hin. apply In_join_firstn in Hin.
  rewrite join_split in Hin.
  assert (Hex : existsb is_surrogate var = true)
    by (apply existsb_exists; eauto).
  congruence.
Qed.

(** ** [GetUefiAllVarNames] *)

Section Enumeration.

Variable py : interp.

(** The first loop: it adds up [total_length] when every name encodes and
    stops at the first name that does not; the state is never touched. *)
Lemma length_loop (vars : list pystr) (acc : N) (st : state) :
  Forall encodes vars ->
  for_each vars (add_length py) acc st
  = (Return
       (fold_left
          (fun length var =>
             length + (getsizeof_int_type py
                       + getsizeof_bytes py (encode_utf16 var)))%N
          vars acc), st).
Proof.
  intros H; revert acc; induction H as [|var vars [b Hb] _ IH]; intros acc;
    [reflexivity|].
  cbn [for_each fold_left]. unfold bind at 1.
  unfold add_length at 1, bind, lift. rewrite Hb. cbn [ret].
  unfold str_encode in Hb.
  destruct (existsb is_surrogate var); [discriminate Hb|].
  injection Hb as <-. apply IH.
Qed.

Lemma length_loop_outcome (vars : list pystr) (acc : N) (st : state) :
  (exists n, for_each vars (add_length py) acc st = (Return n, st))
  \/ for_each vars (add_length py) acc st = (Raise UnicodeEncodeError, st).
Proof.
  revert acc; induction vars as [|var vars IH]; intros acc;
    [left; eexists; reflexivity|].
  assert (Hstep : for_each (var :: vars) (add_length py) acc st
                  = if existsb is_surrogate var
                    then (Raise UnicodeEncodeError, st)
                    else for_each vars (add_length py)
                           (acc + (getsizeof_int_type py
                                   + getsizeof_bytes py (encode_utf16 var)))%N
                           st).
  { cbn [for_each]. unfold bind at 1.
    unfold add_length at 1, bind, lift, str_encode.
    now destruct (existsb is_surrogate var). }
  rewrite Hstep. destruct (existsb is_surrogate var); [now right|apply IH].
Qed.

Lemma length_loop_fails (vars : list pystr) (acc : N) (st : state) :
  Exists (fun var => existsb is_surrogate var = true) vars ->
  for_each vars (add_length py) acc st = (Raise UnicodeEncodeError, st).
Proof.
  intros H; revert acc; induction H as [var vars Hv|var vars _ IH]; intros acc;
    cbn [for_each]; unfold bind at 1; unfold add_length at 1, bind, lift,
    str_encode.
  - now rewrite Hv.
  - destruct (existsb is_surrogate var); [reflexivity|]. cbn [ret]. apply IH.
Qed.

(** With the store directory present the call is the two loops over the
    listing. *)
Lemma GetUefiAllVarNames_store (d : list entry) (out : list pystr) :
  GetUefiAllVarNames py (mkState (Some d) out)
  = bind (for_each (map fst d) (add_length py) 0%N)
      (fun length =>
         bind (for_each (map fst d) (write_record py)
                 (0%N, create_string_buffer length))
           (fun acc => let '(offset, efi_var_names) := acc in
                       ret (0, Some efi_var_names)))
      (mkState (Some d) out).
Proof. reflexivity. Qed.

(** When every listed name encodes, the second loop runs on a buffer of
    [total_length] zero bytes. *)
Lemma GetUefiAllVarNames_listing (d : list entry) (out : list pystr) :
  Forall encodes (map fst d) ->
  GetUefiAllVarNames py (mkState (Some d) out)
  = bind (for_each (map fst d) (write_record py)
            (0%N, create_string_buffer (total_length py (map fst d))))
      (fun acc => let '(offset, efi_var_names) := acc in
                  ret (0, Some efi_var_names))
      (mkState (Some d) out).
Proof.
  intros H. rewrite GetUefiAllVarNames_store. unfold bind at 1.
  now rewrite (length_loop _ _ _ H).
Qed.

(** A value of four bytes cannot be stored at one index of the buffer. *)
Lemma buffer_setitem_packed (buf : list byte) (offset : N) (v : Z)
    (packed : list byte) :
  struct_pack_I v = Return packed ->
  buffer_setitem buf offset packed = Raise IndexError
  \/ buffer_setitem buf offset packed = Raise TypeError.
Proof.
  unfold struct_pack_I, buffer_setitem.
  destruct ((0 <=? v) && (v <=? 4294967295)); [|discriminate].
  intros [= <-].
  destruct (N.of_nat (length buf) <=? offset)%N; [left|right]; reflexivity.
Qed.

(** For an entry that decodes to a name that encodes, the loop body ends
    at the store of the packed offset field (line 112). *)
Lemma write_record_decoded (var : pystr) (acc : N * list byte) (st : state)
    (guid : list byte) (name : pystr) :
  decode_entry var = Return (guid, name) -> encodes name ->
  exists e,
    (e = struct_error \/ e = IndexError \/ e = TypeError)
    /\ write_record py var acc st
       = (Raise e, mkState (efivars st) (printed (stdout st))).
Proof.
  intros Hd [b Hb]. destruct acc as [offset buf].
  unfold write_record, bind, lift. rewrite Hd, Hb.
  unfold print. cbn [efivars stdout]. fold (printed (stdout st)).
  destruct (struct_pack_I _) as [packed|e] eqn:Hp.
  - destruct (buffer_setitem_packed buf offset _ _ Hp) as [-> | ->]; eauto.
  - unfold struct_pack_I in Hp.
    destruct (_ && _); [discriminate|]. injection Hp as <-. eauto.
Qed.

(** For an entry that does not decode, the loop body raises the exception
    of line 102 and changes nothing. *)
Lemma write_record_malformed (var : pystr) (acc : N * list byte) (st : state) :
  uuid.UUID_of_hex (join hyphen (slice_last 5 (split hyphen var)))
  = Raise ValueError ->
  write_record py var acc st
  = (Raise (Exception (lit "Could not parse " ++ dquote :: var ++ [dquote])), st).
Proof.
  intros H. destruct acc as [offset buf].
  unfold write_record, bind, lift.
  now rewrite (decode_entry_malformed _ H).
Qed.

(** The loop body never completes: it raises before anything is printed,
    or after the three prints. *)
Lemma write_record_outcome (var : pystr) (acc : N * list byte) (st : state) :
  exists e,
    write_record py var acc st = (Raise e, st)
    \/ write_record py var acc st
       = (Raise e, mkState (efivars st) (printed (stdout st))).
Proof.
  destruct (decode_entry var) as [[guid name]|e] eqn:Hd.
  - destruct (str_encode name) as [b|e] eqn:Hb.
    + destruct (write_record_decoded var acc st guid name Hd
                  (ex_intro _ b Hb)) as (e & _ & H). eauto.
    + exists e. left. destruct acc as [offset buf].
      unfold write_record, bind, lift. now rewrite Hd, Hb.
  - exists e. left. destruct acc as [offset buf].
    unfold write_record, bind, lift. now rewrite Hd.
Qed.

Lemma write_record_raises (var : pystr) (acc : N * list byte) (st : state) :
  exists e st', write_record py var acc st = (Raise e, st').
Proof. destruct (write_record_outcome var acc st) as (e & [H|H]); eauto. Qed.

Lemma for_each_first_raises {A S B} (x : A) (xs : list A) (body : A -> S -> M S)
    (k : S -> M B) (acc : S) (st st' : state) (e : exn) :
  body x acc st = (Raise e, st') ->
  bind (for_each (x :: xs) body acc) k st = (Raise e, st').
Proof. intros H. cbn [for_each]. unfold bind. now rewrite H. Qed.

(** So a store with at least one entry gets no result: the call raises
    with nothing printed, or after the three prints of the first round. *)
Lemma nonempty_listing_outcome (var : pystr) (data : list byte)
    (rest : list entry) (out : list pystr) :
  let st := mkState (Some ((var, data) :: rest)) out in
  exists e st',
    GetUefiAllVarNames py st = (Raise e, st')
    /\ (st' = st \/ st' = mkState (efivars st) (printed out)).
Proof.
  cbv zeta. rewrite GetUefiAllVarNames_store. unfold bind at 1.
  match goal with
  | |- context [for_each ?vars (add_length py) 0%N ?s] =>
      destruct (length_loop_outcome vars 0%N s) as [[n Hn]|Hn]
  end; rewrite Hn; [|eauto].
  cbv beta iota. cbn [map fst].
  match goal with
  | |- context [for_each (var :: ?vars) (write_record py) ?acc] =>
      destruct (write_record_outcome var acc
                  (mkState (Some ((var, data) :: rest)) out)) as (e & [H|H])
  end; exists e; eexists;
    (split; [apply for_each_first_raises; exact H|]);
    [left|right]; reflexivity.
Qed.

Lemma nonempty_listing_raises (var : pystr) (data : list byte)
    (rest : list entry) (out : list pystr) :
  exists e st',
    GetUefiAllVarNames py (mkState (Some ((var, data) :: rest)) out)
    = (Raise e, st').
Proof.
  destruct (nonempty_listing_outcome var data rest out) as (e & st' & H & _).
  eauto.
Qed.

End Enumeration.

Lemma encodes_lit_test : encodes test_entry.
Proof. eexists. reflexivity. Qed.

(** A listing either encodes name by name or holds a name with a lone
    surrogate. *)
Lemma not_all_encode (vars : list pystr) :
  ~ Forall encodes vars ->
  Exists (fun var => existsb is_surrogate var = true) vars.
Proof.
  induction vars as [|var vars IH]; intros H; [now destruct H|].
  destruct (existsb is_surrogate var) eqn:E; [now apply Exists_cons_hd|].
  apply Exists_cons_tl, IH. intros Hall. apply H. constructor; [|exact Hall].
  exists (encode_utf16 var). unfold str_encode. now rewrite E.
Qed.

Lemma listing_unencodable (py : interp) (d : list entry) (out : list pystr) :
  Exists (fun var => existsb is_surrogate var = true) (map fst d) ->
  GetUefiAllVarNames py (mkState (Some d) out)
  = (Raise UnicodeEncodeError, mkState (Some d) out).
Proof.
  intros H. rewrite GetUefiAllVarNames_store. unfold bind at 1.
  now rewrite length_loop_fails.
Qed.
(** C1, at a store holding the one entry
    [Test-8be4df61-93ca-11d2-aa0d-00e098032b8c].  The entry decodes to the
    name [Test], for which the specification's record length is
    4 + 16 + 2 * 4 = 28.  The length loop instead adds the size of the
    type object [int] and the size of the [bytes] object holding the
    UTF-16 encoding of the whole entry name (541 on a 64-bit CPython 3.11),
    and the call returns no buffer: it ends in a [TypeError] at the store
    of the first offset field.  [total_length] is what the length loop
    computes for a name that encodes; for one that does not, the loop
    raises. *)
Theorem buffer_length_single_entry (data : list byte) (out : list pystr) :
  decode_entry test_entry = Return (uuid.bytes_le efi_global, lit "Test")
  /\ spec_record_length (lit "Test") = 28%N
  /\ (forall py var,
        total_length py [var]
        = (getsizeof_int_type py + getsizeof_bytes py (encode_utf16 var))%N)
  /\ total_length cpython [test_entry] = 541%N
  /\ GetUefiAllVarNames cpython (mkState (Some [(test_entry, data)]) out)
     = (Raise TypeError, mkState (Some [(test_entry, data)]) (printed out))
  /\ (forall py var st,
        for_each [var] (add_length py) 0%N st
        = match str_encode var with
          | Return _ => (Return (total_length py [var]), st)
          | Raise e => (Raise e, st)
          end).
Proof.
  split; [reflexivity|]. split; [reflexivity|].
  split; [intros py var; reflexivity|].
  split; [reflexivity|]. split; [reflexivity|].
  intros py var st. cbn [for_each]. unfold bind, add_length, lift, str_encode.
  now destruct (existsb is_surrogate var).
Qed.

(** C2, for every store whose first entry decodes.  When the listed names
    all encode, the value packed for [NextEntryOffset] is four bytes long
    and is stored at a single index of the buffer, so the call ends there
    in an exception, after the three prints.  When a listed name does not
    encode, the call ends already in the length loop.  Either way there
    is no buffer to walk. *)
Theorem offset_store_raises (py : interp) (var : pystr) (data : list byte)
    (rest : list entry) (out : list pystr) (guid : list byte) (name : pystr) :
  decode_entry var = Return (guid, name) ->
  (Forall encodes (var :: map fst rest) ->
   exists e,
     (e = struct_error \/ e = IndexError \/ e = TypeError)
     /\ GetUefiAllVarNames py (mkState (Some ((var, data) :: rest)) out)
        = (Raise e, mkState (Some ((var, data) :: rest)) (printed out)))
  /\ (~ Forall encodes (var :: map fst rest) ->
      GetUefiAllVarNames py (mkState (Some ((var, data) :: rest)) out)
      = (Raise UnicodeEncodeError, mkState (Some ((var, data) :: rest)) out)).
Proof.
  intros Hd. split.
  - intros Henc.
    assert (Hname : encodes name).
    { apply (decoded_name_encodes var guid name Hd).
      now apply Forall_cons_iff in Henc as [Hv _]. }
    destruct (write_record_decoded py var
                (0%N, create_string_buffer (total_length py (var :: map fst rest)))
                (mkState (Some ((var, data) :: rest)) out) guid name Hd Hname)
      as (e & He & H).
    exists e. split; [exact He|].
    etransitivity;
      [exact (GetUefiAllVarNames_listing py ((var, data) :: rest) out Henc)|].
    cbn [map fst]. apply for_each_first_raises. exact H.
  - intros Henc.
    exact (listing_unencodable py ((var, data) :: rest) out
             (not_all_encode _ Henc)).
Qed.

Lemma offset_store_raises_witness :
  decode_entry test_entry = Return (uuid.bytes_le efi_global, lit "Test")
  /\ Forall encodes (test_entry :: map fst (@nil entry))
  /\ exists e,
       (e = struct_error \/ e = IndexError \/ e = TypeError)
       /\ GetUefiAllVarNames cpython (mkState (Some [(test_entry, [])]) [])
          = (Raise e, mkState (Some [(test_entry, [])]) (printed [])).
Proof.
  assert (Hd : decode_entry test_entry
               = Return (uuid.bytes_le efi_global, lit "Test")) by reflexivity.
  assert (H : Forall encodes (test_entry :: map fst (@nil entry)))
    by (constructor; [apply encodes_lit_test|constructor]).
  split; [exact Hd|]. split; [exact H|].
  exact (proj1 (offset_store_raises cpython test_entry [] [] []
                  (uuid.bytes_le efi_global) (lit "Test") Hd) H).
Defined.

(** C5 as stated fails: with the one entry [bad] in the store the call
    returns no status at all, it raises the exception of line 102. *)
Lemma malformed_entry_no_status :
  uuid.UUID_of_hex (join hyphen (slice_last 5 (split hyphen (lit "bad"))))
  = Raise ValueError
  /\ GetUefiAllVarNames cpython (mkState (Some [(lit "bad", [])]) [])
     = (Raise (Exception (lit "Could not parse " ++ dquote :: lit "bad" ++ [dquote])),
        mkState (Some [(lit "bad", [])]) [])
  /\ ~ (exists status buffer st',
          GetUefiAllVarNames cpython (mkState (Some [(lit "bad", [])]) [])
          = (Return (status, buffer), st')).
Proof.
  assert (E : GetUefiAllVarNames cpython (mkState (Some [(lit "bad", [])]) [])
              = (Raise (Exception (lit "Could not parse "
                                     ++ dquote :: lit "bad" ++ [dquote])),
                 mkState (Some [(lit "bad", [])]) []))
    by reflexivity.
  split; [reflexivity|]. split; [exact E|].
  intros (status & buffer & st' & H). rewrite E in H. discriminate H.
Qed.

(** C5, as the code has it.  An entry on whose last five segments
    [uuid.UUID] raises [ValueError] makes the decode step raise the
    exception of line 102, [Could not parse] followed by the quoted entry
    name, and the loop round that reaches the entry ends with that
    exception, whatever the buffer and the state.  When that entry is the
    first of the listing and the listed names all encode, the call as a
    whole ends with that exception: it returns neither a status nor a
    buffer, prints nothing and leaves the state as it was.  When a listed
    name does not encode, the call ends before any decode, in the length
    loop, with [UnicodeEncodeError]. *)
Theorem malformed_entry_aborts (py : interp) (var : pystr) :
  uuid.UUID_of_hex (join hyphen (slice_last 5 (split hyphen var)))
  = Raise ValueError ->
  let failure :=
    Exception (lit "Could not parse " ++ dquote :: var ++ [dquote]) in
  decode_entry var = Raise failure
  /\ (forall acc st, write_record py var acc st = (Raise failure, st))
  /\ (forall data rest out,
        Forall encodes (var :: map fst rest) ->
        GetUefiAllVarNames py (mkState (Some ((var, data) :: rest)) out)
        = (Raise failure, mkState (Some ((var, data) :: rest)) out))
  /\ (forall data rest out,
        ~ Forall encodes (var :: map fst rest) ->
        GetUefiAllVarNames py (mkState (Some ((var, data) :: rest)) out)
        = (Raise UnicodeEncodeError,
           mkState (Some ((var, data) :: rest)) out)).
Proof.
  intros Hbad. cbv zeta.
  split; [now apply decode_entry_malformed|].
  split; [intros acc st; now apply write_record_malformed|].
  split; intros data rest out Henc.
  - etransitivity;
      [exact (GetUefiAllVarNames_listing py ((var, data) :: rest) out Henc)|].
    cbn [map fst]. apply for_each_first_raises.
    now apply write_record_malformed.
  - exact (listing_unencodable py ((var, data) :: rest) out
             (not_all_encode _ Henc)).
Qed.

Lemma malformed_entry_aborts_witness :
  uuid.UUID_of_hex (join hyphen (slice_last 5 (split hyphen (lit "bad"))))
  = Raise ValueError
  /\ Forall encodes (lit "bad" :: map fst (@nil entry))
  /\ GetUefiAllVarNames cpython (mkState (Some [(lit "bad", [])]) [])
     = (Raise (Exception (lit "Could not parse " ++ dquote :: lit "bad" ++ [dquote])),
        mkState (Some [(lit "bad", [])]) []).
Proof.
  assert (H1 : uuid.UUID_of_hex
                 (join hyphen (slice_last 5 (split hyphen (lit "bad"))))
               = Raise ValueError) by reflexivity.
  assert (H2 : Forall encodes (lit "bad" :: map fst (@nil entry))).
  { constructor; [eexists; reflexivity|constructor]. }
  split; [exact H1|]. split; [exact H2|].
  exact (proj1 (proj2 (proj2 (malformed_entry_aborts cpython (lit "bad") H1)))
           [] [] [] H2).
Defined.

(** A listed name that came from a file name with a byte that is no UTF-8
    stops the call in the length loop, also when the entry would not
    decode. *)
Example surrogate_entry_stops_length_loop :
  str_encode [Chr "b"; Esc xe9] = Raise UnicodeEncodeError
  /\ GetUefiAllVarNames cpython
       (mkState (Some [([Chr "b"; Esc xe9], [])]) [])
     = (Raise UnicodeEncodeError,
        mkState (Some [([Chr "b"; Esc xe9], [])]) []).
Proof. split; reflexivity. Qed.

(** An entry of fewer than five segments need not fail to decode: 32
    hexadecimal digits without a hyphen are a GUID for [uuid.UUID], and the
    name is then empty. *)
Example undashed_entry_decodes :
  split hyphen (lit "0123456789abcdef0123456789abcdef")
  = [lit "0123456789abcdef0123456789abcdef"]
  /\ decode_entry (lit "0123456789abcdef0123456789abcdef")
     = Return (uuid.bytes_le (uuid.mkUUID 1512366075204170929049582354406559215),
               []).
Proof. split; reflexivity. Qed.

(** C10. When the store directory exists and is empty, the call returns
    status 0 with a buffer of length zero; it neither reports not-found
    nor raises, and prints nothing. *)
Theorem empty_store_lists_nothing (py : interp) (out : list pystr) :
  GetUefiAllVarNames py (mkState (Some []) out)
  = (Return (0, Some []), mkState (Some []) out)
  /\ GetUefiAllVarNames py (mkState None out)
     = (Return (ERROR_ENVVAR_NOT_FOUND, None), mkState None out).
Proof. split; reflexivity. Qed.

(** * Further properties *)

(** ** The attributes field *)

Lemma struct_pack_I_in_range (v : Z) :
  0 <= v < 2 ^ 32 ->
  exists packed,
    struct_pack_I v = Return packed
    /\ length packed = 4%nat /\ le_value packed = v.
Proof.
  intros Hv. change (2 ^ 32) with 4294967296 in Hv.
  unfold struct_pack_I.
  replace ((0 <=? v) && (v <=? 4294967295)) with true
    by (symmetry; apply andb_true_iff; split; [apply Z.leb_le|apply Z.leb_le]; lia).
  eexists. split; [reflexivity|]. split; [reflexivity|].
  cbn [le_value]. rewrite !byte_value_of_Z.
  pose proof (Z.div_mod v 256 ltac:(lia)).
  pose proof (Z.div_mod (v / 256) 256 ltac:(lia)).
  pose proof (Z.div_mod (v / 256 / 256) 256 ltac:(lia)).
  rewrite !Z.div_div in * by lia.
  change (256 * 256) with 65536 in *.
  change (65536 * 256) with 16777216 in *.
  assert (Hs : (v / 16777216) mod 256 = v / 16777216).
  { apply Z.mod_small. split; [apply Z.div_pos; lia|].
    apply Z.div_lt_upper_bound; lia. }
  rewrite Hs. lia.
Qed.

Lemma struct_pack_I_out_of_range (v : Z) :
  ~ 0 <= v < 2 ^ 32 -> struct_pack_I v = Raise struct_error.
Proof.
  intros Hv. change (2 ^ 32) with 4294967296 in Hv.
  unfold struct_pack_I.
  destruct (Z.leb_spec 0 v), (Z.leb_spec v 4294967295); cbn [andb];
    try reflexivity; lia.
Qed.

(** ** Every case of a write *)

(** A write either fails at the open, and then changes nothing, or it
    replaces the content of the one file its path names. *)
Lemma SetUefiVar_write_cases (name : pystr) (guid : uuid.UUID)
    (var : list byte) (attrs : option Z) (st : state) :
  (exists err,
     os.open_wb (var_path name guid) st = (Raise err, st)
     /\ SetUefiVar name guid (Some var) attrs st = (Raise err, st))
  \/ (exists e d r data,
        os.resolve (var_path name guid) = Return (os.File e)
        /\ efivars st = Some d
        /\ SetUefiVar name guid (Some var) attrs st
           = (r, mkState (Some (os.set_entry e data d)) (stdout st))).
Proof.
  destruct (os.open_wb (var_path name guid) st) as [[fd|err] st1] eqn:Ho.
  - right. destruct (open_wb_inv _ _ _ _ Ho) as (d & Hr & Hd & _).
    destruct st as [ev out]. cbn [efivars stdout] in *. subst ev.
    exists fd, d.
    destruct (struct_pack_I (match attrs with None => 7 | Some a => a end))
      as [packed|err] eqn:Hp.
    + rewrite (SetUefiVar_write name guid var attrs packed fd d out Hr Hp).
      eauto.
    + rewrite (SetUefiVar_pack_fails name guid var attrs err fd d out Hr Hp).
      eauto.
  - left. pose proof (open_wb_fails_state _ _ _ _ Ho) as ->.
    exists err. split; [reflexivity|]. now apply SetUefiVar_open_fails.
Qed.

(** The walk raises nothing but [OSError]. *)
Lemma walk_raises (comps : list pystr) (depth : nat) (err : exn) :
  os.walk depth comps = Raise err -> err = OSError.
Proof.
  revert depth; induction comps as [|c comps IH]; intros depth; cbn [os.walk].
  - destruct (Nat.eqb depth 4); [discriminate|congruence].
  - destruct (os.is_blank c); [apply IH|].
    destruct (str_eqb c (lit "..")); [apply IH|].
    destruct (Nat.ltb 255 (os.fs_length c)); [congruence|].
    destruct (Nat.ltb depth 4).
    + destruct (str_eqb c (nth depth os.ancestors [])); [apply IH|congruence].
    + destruct comps; [discriminate|congruence].
Qed.

(** ** What a write leaves and what a read returns *)

(** X1. Whenever the composed path can be opened for writing, a write with
    attributes that fit 32 bits returns 1, and the read that follows
    returns status 0 with the four attribute bytes, least significant
    first, followed by the payload: the read does not strip the
    attributes. *)
Theorem write_then_read (name : pystr) (guid : uuid.UUID) (payload : list byte)
    (attrs : Z) (st : state) (fd : pystr) (st1 : state) :
  0 <= attrs < 2 ^ 32 ->
  os.open_wb (var_path name guid) st = (Return fd, st1) ->
  exists packed st',
    SetUefiVar name guid (Some payload) (Some attrs) st = (Return 1, st')
    /\ GetUefiVar name guid st' = (Return (0, Some (packed ++ payload), None), st')
    /\ length packed = 4%nat
    /\ le_value packed = attrs.
Proof.
  intros Ha Ho.
  destruct (struct_pack_I_in_range attrs Ha) as (packed & Hp & Hlen & Hval).
  destruct (open_wb_inv _ _ _ _ Ho) as (d & Hr & Hd & _).
  destruct st as [ev out]. cbn [efivars] in Hd. subst ev.
  exists packed. eexists.
  split; [exact (SetUefiVar_write name guid payload (Some attrs) packed fd d
                   out Hr Hp)|].
  split; [|split; assumption].
  rewrite GetUefiVar_result. unfold stored, lookup, file_content.
  change (lit "/sys/firmware/efi/efivars/" ++ entry_name name guid)
    with (var_path name guid).
  rewrite Hr. cbn [efivars].
  now rewrite has_set_entry, get_set_entry.
Qed.

Lemma write_then_read_witness :
  0 <= 7 < 2 ^ 32
  /\ exists packed st',
       SetUefiVar (lit "Test") efi_global (Some [x01; x02]) (Some 7)
         (mkState (Some []) [])
       = (Return 1, st')
       /\ GetUefiVar (lit "Test") efi_global st'
          = (Return (0, Some (packed ++ [x01; x02]), None), st')
       /\ length packed = 4%nat
       /\ le_value packed = 7.
Proof.
  assert (H : 0 <= 7 < 2 ^ 32) by (split; [lia|reflexivity]).
  split; [exact H|].
  exact (write_then_read (lit "Test") efi_global [x01; x02] 7
           (mkState (Some []) []) test_entry
           (mkState (Some [(test_entry, [])]) []) H eq_refl).
Defined.

(** X2. Whenever the composed path can be opened for writing, a write with
    attributes that do not fit 32 bits raises [struct.error] after the
    open: the file of the variable is left existing and empty, whatever it
    held before. *)
Theorem bad_attributes_truncate (name : pystr) (guid : uuid.UUID)
    (payload : list byte) (attrs : Z) (st : state) (fd : pystr) (st1 : state) :
  ~ 0 <= attrs < 2 ^ 32 ->
  os.open_wb (var_path name guid) st = (Return fd, st1) ->
  SetUefiVar name guid (Some payload) (Some attrs) st = (Raise struct_error, st1)
  /\ lookup (entry_name name guid) st1 = Some []
  /\ GetUefiVar name guid st1 = (Return (0, Some [], None), st1).
Proof.
  intros Ha Ho.
  destruct (open_wb_inv _ _ _ _ Ho) as (d & Hr & Hd & ->).
  destruct st as [ev out]. cbn [efivars stdout] in *. subst ev.
  split; [exact (SetUefiVar_pack_fails name guid payload (Some attrs)
                   struct_error fd d out Hr
                   (struct_pack_I_out_of_range attrs Ha))|].
  assert (Hl : lookup (entry_name name guid)
                 (mkState (Some (os.set_entry fd [] d)) out) = Some []).
  { unfold lookup, file_content.
    change (lit "/sys/firmware/efi/efivars/" ++ entry_name name guid)
      with (var_path name guid).
    rewrite Hr. cbn [efivars]. apply get_set_entry. }
  split; [exact Hl|].
  rewrite GetUefiVar_result, Hl. unfold stored. rewrite Hr. cbn [efivars].
  now rewrite has_set_entry.
Qed.

Lemma bad_attributes_truncate_witness :
  let st := mkState (Some [(test_entry, [x07; x00; x00; x00; xff])]) [] in
  let st1 := mkState (Some [(test_entry, [])]) [] in
  ~ 0 <= -1 < 2 ^ 32
  /\ os.open_wb (var_path (lit "Test") efi_global) st = (Return test_entry, st1)
  /\ SetUefiVar (lit "Test") efi_global (Some [x01; x02]) (Some (-1)) st
     = (Raise struct_error, st1)
  /\ lookup (entry_name (lit "Test") efi_global) st1 = Some []
  /\ GetUefiVar (lit "Test") efi_global st1 = (Return (0, Some [], None), st1).
Proof.
  cbv zeta.
  assert (H : ~ 0 <= -1 < 2 ^ 32) by lia.
  split; [exact H|]. split; [reflexivity|].
  exact (bad_attributes_truncate (lit "Test") efi_global [x01; x02] (-1)
           (mkState (Some [(test_entry, [x07; x00; x00; x00; xff])]) [])
           test_entry (mkState (Some [(test_entry, [])]) []) H eq_refl).
Defined.

(** X3. Without the store directory a write never returns and changes
    nothing: it raises [OSError] when the path converts to bytes without a
    null byte (otherwise the conversion raises).  A delete returns 0 and a
    read returns the not-found code, and they change nothing either. *)
Theorem accessors_without_store (name : pystr) (guid : uuid.UUID)
    (payload : list byte) (attrs : option Z) (out : list pystr) :
  (exists err,
     SetUefiVar name guid (Some payload) attrs (mkState None out)
     = (Raise err, mkState None out))
  /\ (forall bytes,
        os.fsencode (var_path name guid) = Return bytes ->
        existsb (Byte.eqb x00) bytes = false ->
        SetUefiVar name guid (Some payload) attrs (mkState None out)
        = (Raise OSError, mkState None out))
  /\ SetUefiVar name guid None attrs (mkState None out)
     = (Return 0, mkState None out)
  /\ GetUefiVar name guid (mkState None out)
     = (Return (203, None, None), mkState None out).
Proof.
  assert (Hs : stored name guid (mkState None out) = false).
  { unfold stored. cbn [efivars].
    now destruct (os.resolve (var_path name guid)) as [[e|]|err]. }
  split; [|split; [|split]].
  - destruct (os.resolve (var_path name guid)) as [[e|]|err] eqn:Hr;
      eexists; apply SetUefiVar_open_fails; unfold os.open_wb; rewrite Hr;
      reflexivity.
  - intros bytes Hb Hnul. apply SetUefiVar_open_fails. unfold os.open_wb.
    destruct (os.resolve (var_path name guid)) as [[e|]|err] eqn:Hr;
      try reflexivity.
    unfold os.resolve in Hr. rewrite Hb, Hnul in Hr.
    destruct (Nat.ltb 4095 (length bytes)); [now injection Hr as <-|].
    destruct (startswith _ _); [|now injection Hr as <-].
    apply walk_raises in Hr. now subst.
  - now apply SetUefiVar_delete_absent.
  - now rewrite GetUefiVar_result, Hs.
Qed.

Lemma accessors_without_store_witness :
  exists bytes,
    os.fsencode (var_path (lit "Test") efi_global) = Return bytes
    /\ existsb (Byte.eqb x00) bytes = false
    /\ SetUefiVar (lit "Test") efi_global (Some [x01]) None (mkState None [])
       = (Raise OSError, mkState None []).
Proof.
  eexists. split; [reflexivity|]. split; [reflexivity|].
  eapply (proj1 (proj2 (accessors_without_store (lit "Test") efi_global [x01]
                          None []))); reflexivity.
Defined.

(** X4. Whatever [SetUefiVar] is asked to do and however it ends, the
    content of every file of the store other than the one its path names
    and the printed output stay as they were. *)
Theorem SetUefiVar_frame (name : pystr) (guid : uuid.UUID)
    (var : option (list byte)) (attrs : option Z) (st : state) (e : pystr) :
  os.resolve (var_path name guid) <> Return (os.File e) ->
  file_content e (snd (SetUefiVar name guid var attrs st)) = file_content e st
  /\ stdout (snd (SetUefiVar name guid var attrs st)) = stdout st.
Proof.
  intros He. destruct var as [payload|].
  - destruct (SetUefiVar_write_cases name guid payload attrs st)
      as [(err & _ & ->)|(e0 & d & r & data & Hr & Hd & ->)];
      [split; reflexivity|].
    unfold file_content. cbn [snd efivars stdout]. rewrite Hd.
    split; [|reflexivity]. apply get_set_other. congruence.
  - destruct (stored name guid st) eqn:Hs.
    + destruct (stored_file name guid st Hs) as (e0 & d & Hr & Hd & Hh).
      rewrite (SetUefiVar_delete_present name guid attrs st e0 d Hr Hd Hh).
      unfold file_content. cbn [snd efivars stdout]. rewrite Hd.
      split; [|reflexivity]. apply get_del_other. congruence.
    + rewrite (SetUefiVar_delete_absent name guid attrs st Hs).
      split; reflexivity.
Qed.

Lemma SetUefiVar_frame_witness :
  let other := lit "Other-8be4df61-93ca-11d2-aa0d-00e098032b8c" in
  let st := mkState (Some [(other, [x07; x00; x00; x00; x2a])]) [] in
  os.resolve (var_path (lit "Test") efi_global) <> Return (os.File other)
  /\ file_content other
       (snd (SetUefiVar (lit "Test") efi_global (Some [x01]) None st))
     = file_content other st.
Proof.
  cbv zeta.
  assert (Hr : os.resolve (var_path (lit "Test") efi_global)
               = Return (os.File test_entry)) by reflexivity.
  assert (H : os.resolve (var_path (lit "Test") efi_global)
              <> Return (os.File
                           (lit "Other-8be4df61-93ca-11d2-aa0d-00e098032b8c"))).
  { rewrite Hr. discriminate. }
  split; [exact H|].
  exact (proj1 (SetUefiVar_frame (lit "Test") efi_global (Some [x01]) None
                  (mkState (Some [(lit "Other-8be4df61-93ca-11d2-aa0d-00e098032b8c",
                                   [x07; x00; x00; x00; x2a])]) [])
                  (lit "Other-8be4df61-93ca-11d2-aa0d-00e098032b8c") H)).
Defined.

(** X5. Whenever the composed path can be opened for writing, a write
    replaces what an earlier write to the same variable left, whether that
    earlier write succeeded or raised at the attributes: the file then
    holds the attributes and payload of the last write only. *)
Theorem last_write_wins (name : pystr) (guid : uuid.UUID)
    (payload1 payload2 : list byte) (attrs1 : option Z) (attrs2 : Z)
    (st : state) (fd : pystr) (st0 : state) :
  0 <= attrs2 < 2 ^ 32 ->
  os.open_wb (var_path name guid) st = (Return fd, st0) ->
  let st1 := snd (SetUefiVar name guid (Some payload1) attrs1 st) in
  exists packed st2,
    SetUefiVar name guid (Some payload2) (Some attrs2) st1 = (Return 1, st2)
    /\ snd (SetUefiVar name guid (Some payload2) (Some attrs2) st) = st2
    /\ lookup (entry_name name guid) st2 = Some (packed ++ payload2)
    /\ length packed = 4%nat /\ le_value packed = attrs2.
Proof.
  intros Ha Ho. cbv zeta.
  destruct (struct_pack_I_in_range attrs2 Ha) as (packed & Hp & Hlen & Hval).
  destruct (open_wb_inv _ _ _ _ Ho) as (d & Hr & Hd & _).
  destruct st as [ev out]. cbn [efivars] in Hd. subst ev.
  assert (H1 : exists r data,
             SetUefiVar name guid (Some payload1) attrs1 (mkState (Some d) out)
             = (r, mkState (Some (os.set_entry fd data d)) out)).
  { destruct (struct_pack_I (match attrs1 with None => 7 | Some a => a end))
      as [p1|err] eqn:Hp1.
    - rewrite (SetUefiVar_write name guid payload1 attrs1 p1 fd d out Hr Hp1).
      eauto.
    - rewrite (SetUefiVar_pack_fails name guid payload1 attrs1 err fd d out
                 Hr Hp1). eauto. }
  destruct H1 as (r & data & ->). cbn [snd].
  exists packed. eexists.
  rewrite !(SetUefiVar_write name guid payload2 (Some attrs2) packed fd _ out
              Hr Hp).
  rewrite set_set_entry. cbn [snd].
  split; [reflexivity|]. split; [reflexivity|].
  unfold lookup, file_content.
  change (lit "/sys/firmware/efi/efivars/" ++ entry_name name guid)
    with (var_path name guid).
  rewrite Hr. cbn [efivars]. rewrite get_set_entry. auto.
Qed.

Lemma last_write_wins_witness :
  0 <= 7 < 2 ^ 32
  /\ exists packed st2,
       SetUefiVar (lit "Test") efi_global (Some [x02]) (Some 7)
         (snd (SetUefiVar (lit "Test") efi_global (Some [x01; x01]) (Some (-1))
                 (mkState (Some []) [])))
       = (Return 1, st2)
       /\ snd (SetUefiVar (lit "Test") efi_global (Some [x02]) (Some 7)
                 (mkState (Some []) [])) = st2
       /\ lookup (entry_name (lit "Test") efi_global) st2 = Some (packed ++ [x02])
       /\ length packed = 4%nat /\ le_value packed = 7.
Proof.
  assert (H : 0 <= 7 < 2 ^ 32) by (split; [lia|reflexivity]).
  split; [exact H|].
  exact (last_write_wins (lit "Test") efi_global [x01; x01] [x02] (Some (-1)) 7
           (mkState (Some []) []) test_entry
           (mkState (Some [(test_entry, [])]) []) H eq_refl).
Defined.

(** X6. After a write that returned 1, a delete returns 1 and the read
    that follows reports not-found. *)
Theorem write_then_delete (name : pystr) (guid : uuid.UUID)
    (payload : list byte) (attrs : option Z) (st st1 : state) :
  SetUefiVar name guid (Some payload) attrs st = (Return 1, st1) ->
  exists st2,
    SetUefiVar name guid None None st1 = (Return 1, st2)
    /\ GetUefiVar name guid st2 = (Return (203, None, None), st2).
Proof.
  intros Hw.
  destruct (SetUefiVar_write_cases name guid payload attrs st)
    as [(err & _ & Hs)|(e & d & r & data & Hr & Hd & Hs)];
    rewrite Hs in Hw; [discriminate Hw|].
  injection Hw as _ <-.
  eexists.
  rewrite (SetUefiVar_delete_present name guid None
             (mkState (Some (os.set_entry e data d)) (stdout st)) e
             (os.set_entry e data d) Hr eq_refl (has_set_entry e data d)).
  split; [reflexivity|].
  rewrite GetUefiVar_result.
  now rewrite (stored_after_delete name guid e _ _ Hr).
Qed.

Lemma write_then_delete_witness :
  exists st1 st2,
    SetUefiVar (lit "Test") efi_global (Some [x01]) None (mkState (Some []) [])
    = (Return 1, st1)
    /\ SetUefiVar (lit "Test") efi_global None None st1 = (Return 1, st2)
    /\ GetUefiVar (lit "Test") efi_global st2 = (Return (203, None, None), st2).
Proof.
  eexists.
  assert (H : SetUefiVar (lit "Test") efi_global (Some [x01]) None
                (mkState (Some []) [])
              = (Return 1,
                 mkState (Some [(test_entry, [x07; x00; x00; x00; x01])]) []))
    by reflexivity.
  destruct (write_then_delete (lit "Test") efi_global [x01] None
              (mkState (Some []) []) _ H) as (st2 & H1 & H2).
  exists st2. split; [exact H|]. split; [exact H1|exact H2].
Defined.

(** ** Entry names *)

(** The segments of a composed entry name, for any name. *)
Lemma entry_name_decodes (name : pystr) (guid : uuid.UUID) :
  uuid.valid guid ->
  uuid.UUID_of_hex
    (join hyphen (slice_last 5 (split hyphen (entry_name name guid))))
  = Return guid
  /\ join hyphen (slice_but_last 5 (split hyphen (entry_name name guid))) = name.
Proof.
  intros Hv.
  pose proof (groups_hyphen_free guid) as Hg. cbv zeta in Hg.
  apply Forall_cons_iff in Hg as [H1 Hg].
  apply Forall_cons_iff in Hg as [H2 Hg].
  apply Forall_cons_iff in Hg as [H3 Hg].
  apply Forall_cons_iff in Hg as [H4 Hg].
  apply Forall_cons_iff in Hg as [H5 _].
  destruct (decode_segments name _ _ _ _ _ H1 H2 H3 H4 H5) as [Hlast Hfirst].
  unfold entry_name. rewrite str_groups. cbn [join].
  rewrite Hlast, Hfirst, join_split. split; [|reflexivity].
  change (uuid.UUID_of_hex (uuid.str guid) = Return guid).
  now apply UUID_of_str.
Qed.

(** Without a slash in it, an entry name can only name the file with its
    bytes. *)
Lemma resolve_no_slash (e0 e : pystr) :
  ~ In (Chr "/") e0 ->
  os.resolve (lit "/sys/firmware/efi/efivars/" ++ e0) = Return (os.File e) ->
  e = os.canon e0.
Proof.
  intros Hs H. unfold os.resolve in H.
  destruct (os.fsencode _); [|discriminate H].
  destruct (existsb _ _); [discriminate H|].
  destruct (Nat.ltb _ _); [discriminate H|].
  destruct (startswith _ _); [|discriminate H].
  rewrite split_entry_path, (split_no_sep _ e0 Hs), walk_to_store in H.
  cbn [os.walk] in H.
  destruct (os.is_blank e0); [discriminate H|].
  destruct (str_eqb e0 (lit "..")); [discriminate H|].
  destruct (Nat.ltb 255 (os.fs_length e0)); [discriminate H|].
  change (Nat.ltb 4 4) with false in H. cbv iota in H.
  now injection H as <-.
Qed.

Lemma entry_name_no_slash (name : pystr) (guid : uuid.UUID) :
  ~ In (Chr "/") name -> ~ In (Chr "/") (entry_name name guid).
Proof.
  intros Hn Hin. unfold entry_name in Hin.
  apply in_app_or in Hin as [Hin|[E|Hin]]; [tauto|discriminate E|].
  pose proof (str_all_canon guid) as Hc. rewrite Forall_forall in Hc.
  specialize (Hc _ Hin). discriminate Hc.
Qed.

Lemma entry_name_plain (name : pystr) (guid : uuid.UUID) :
  existsb is_surrogate name = false ->
  existsb is_surrogate (entry_name name guid) = false.
Proof.
  intros Hn. unfold entry_name. rewrite existsb_app, Hn. cbn [orb existsb].
  apply portable_plain.
  eapply Forall_impl; [|apply str_all_canon]. apply canon_portable.
Qed.

(** X7. Among variable names without a slash and without a lone
    surrogate, two variables with valid GUIDs are kept in the same file of
    the store only when they have the same name and the same GUID. *)
Theorem var_path_injective (name1 name2 : pystr) (guid1 guid2 : uuid.UUID)
    (e : pystr) :
  uuid.valid guid1 -> uuid.valid guid2 ->
  ~ In (Chr "/") name1 -> ~ In (Chr "/") name2 ->
  existsb is_surrogate name1 = false -> existsb is_surrogate name2 = false ->
  os.resolve (var_path name1 guid1) = Return (os.File e) ->
  os.resolve (var_path name2 guid2) = Return (os.File e) ->
  name1 = name2 /\ guid1 = guid2.
Proof.
  intros Hv1 Hv2 Hs1 Hs2 Hp1 Hp2 Hr1 Hr2.
  apply resolve_no_slash in Hr1; [|now apply entry_name_no_slash].
  apply resolve_no_slash in Hr2; [|now apply entry_name_no_slash].
  rewrite (canon_plain _ (entry_name_plain name1 guid1 Hp1)) in Hr1.
  rewrite (canon_plain _ (entry_name_plain name2 guid2 Hp2)) in Hr2.
  destruct (entry_name_decodes name1 guid1 Hv1) as [Hg1 Hn1].
  destruct (entry_name_decodes name2 guid2 Hv2) as [Hg2 Hn2].
  rewrite <- Hr1 in Hg1, Hn1. rewrite <- Hr2 in Hg2, Hn2.
  split; congruence.
Qed.

Lemma var_path_injective_witness :
  uuid.valid efi_global
  /\ ~ In (Chr "/") (lit "Test")
  /\ existsb is_surrogate (lit "Test") = false
  /\ os.resolve (var_path (lit "Test") efi_global) = Return (os.File test_entry)
  /\ lit "Test" = lit "Test" /\ efi_global = efi_global.
Proof.
  assert (H : uuid.valid efi_global).
  { unfold uuid.valid, efi_global; simpl; lia. }
  assert (Hs : ~ In (Chr "/") (lit "Test")).
  { simpl. intros [E|[E|[E|[E|[]]]]]; discriminate E. }
  assert (Hp : existsb is_surrogate (lit "Test") = false) by reflexivity.
  assert (Hr : os.resolve (var_path (lit "Test") efi_global)
               = Return (os.File test_entry)) by reflexivity.
  split; [exact H|]. split; [exact Hs|]. split; [exact Hp|]. split; [exact Hr|].
  exact (var_path_injective (lit "Test") (lit "Test") efi_global efi_global
           test_entry H H Hs Hs Hp Hp Hr Hr).
Defined.

(** Two names with the same bytes are one variable: the escaped form of
    the two UTF-8 bytes of a character names the file of that
    character. *)
Example escaped_name_alias :
  os.resolve (var_path [Esc xc3; Esc xa9] efi_global)
  = os.resolve (var_path [Chr "233"] efi_global)
  /\ SetUefiVar [Esc xc3; Esc xa9] efi_global (Some [x01]) None
       (mkState (Some []) [])
     = SetUefiVar [Chr "233"] efi_global (Some [x01]) None
         (mkState (Some []) []).
Proof. split; reflexivity. Qed.

(** X8. The canonical form of a GUID has 36 characters, so the composed
    entry name is 37 characters longer than the variable name and the path
    63 characters longer. *)
Theorem entry_name_length (name : pystr) (guid : uuid.UUID) :
  uuid.valid guid ->
  length (uuid.str guid) = 36%nat
  /\ length (entry_name name guid) = (length name + 37)%nat
  /\ length (var_path name guid) = (length name + 63)%nat.
Proof.
  intros _.
  assert (H : length (uuid.str guid) = 36%nat).
  { unfold uuid.str, slice. cbv zeta.
    pose proof (hex_fixed_length 32 (uuid.int guid)) as Hl.
    repeat (rewrite length_app; cbn [length]).
    rewrite !length_firstn, !length_skipn, Hl. reflexivity. }
  split; [exact H|].
  assert (He : length (entry_name name guid) = (length name + 37)%nat).
  { unfold entry_name. rewrite length_app. cbn [length]. rewrite H. lia. }
  split; [exact He|].
  unfold var_path. rewrite length_app, He. cbn. lia.
Qed.

Lemma entry_name_length_witness :
  uuid.valid efi_global
  /\ length (uuid.str efi_global) = 36%nat
  /\ length (entry_name (lit "Test") efi_global) = (length (lit "Test") + 37)%nat
  /\ length (var_path (lit "Test") efi_global) = (length (lit "Test") + 63)%nat.
Proof.
  assert (H : uuid.valid efi_global).
  { unfold uuid.valid, efi_global; simpl; lia. }
  split; [exact H|].
  exact (entry_name_length (lit "Test") efi_global H).
Defined.

(** ** The decode step on any entry *)

Lemma UUID_of_hex_cases (hex : pystr) :
  (exists u, uuid.UUID_of_hex hex = Return u /\ uuid.valid u)
  \/ uuid.UUID_of_hex hex = Raise ValueError.
Proof.
  unfold uuid.UUID_of_hex. cbv zeta.
  destruct (negb (Nat.eqb _ 32)); [now right|].
  destruct (int16 _) as [i|]; [|now right].
  destruct ((0 <=? i) && (i <? 2 ^ 128)) eqn:E; cbn [negb]; [|now right].
  left. eexists. split; [reflexivity|].
  apply andb_true_iff in E as [E1 E2].
  apply Z.leb_le in E1. apply Z.ltb_lt in E2.
  unfold uuid.valid. cbn [uuid.int]. lia.
Qed.

Lemma decode_entry_cases (var : pystr) :
  (exists u,
     uuid.valid u
     /\ uuid.UUID_of_hex (join hyphen (slice_last 5 (split hyphen var)))
        = Return u
     /\ decode_entry var
        = Return (uuid.bytes_le u,
                  join hyphen (slice_but_last 5 (split hyphen var))))
  \/ decode_entry var
     = Raise (Exception (lit "Could not parse " ++ dquote :: var ++ [dquote])).
Proof.
  destruct (UUID_of_hex_cases (join hyphen (slice_last 5 (split hyphen var))))
    as [(u & Hu & Hv)|Hbad].
  - left. exists u. split; [exact Hv|]. split; [exact Hu|].
    now apply decode_entry_of_guid.
  - right. now apply decode_entry_malformed.
Qed.

Lemma to_bytes_big_length (w : nat) (n : Z) :
  length (uuid.to_bytes_big w n) = w.
Proof.
  revert n; induction w as [|w IH]; intros n; simpl; [reflexivity|].
  rewrite length_app, IH. simpl. lia.
Qed.

Lemma bytes_le_length (u : uuid.UUID) : length (uuid.bytes_le u) = 16%nat.
Proof.
  unfold uuid.bytes_le, uuid.bytes, slice. cbv zeta.
  pose proof (to_bytes_big_length 16 (uuid.int u)) as Hl.
  rewrite !length_app, !length_rev, !length_firstn, !length_skipn, Hl.
  reflexivity.
Qed.

(** X9. Whenever an entry decodes, the GUID obtained is exactly 16 bytes
    long, the size of the [VendorGuid] field. *)
Theorem decoded_guid_16_bytes (var : pystr) (guid : list byte) (name : pystr) :
  decode_entry var = Return (guid, name) -> length guid = 16%nat.
Proof.
  intros H. destruct (decode_entry_cases var) as [(u & _ & _ & Hd)|Hd];
    rewrite Hd in H; [|discriminate H].
  injection H as <- _. apply bytes_le_length.
Qed.

Lemma decoded_guid_16_bytes_witness :
  exists guid,
    decode_entry test_entry = Return (guid, lit "Test")
    /\ length guid = 16%nat.
Proof.
  exists (uuid.bytes_le efi_global).
  assert (H : decode_entry test_entry
              = Return (uuid.bytes_le efi_global, lit "Test")) by reflexivity.
  split; [exact H|].
  exact (decoded_guid_16_bytes test_entry _ _ H).
Defined.

(** X10. The decode step fails in one way only: for every entry it either
    gives a GUID and a name, or raises the exception whose message is
    [Could not parse] followed by the entry name in double quotes. *)
Theorem decode_entry_only_failure (var : pystr) :
  (exists guid name, decode_entry var = Return (guid, name))
  \/ decode_entry var
     = Raise (Exception (lit "Could not parse " ++ dquote :: var ++ [dquote])).
Proof.
  destruct (decode_entry_cases var) as [(u & _ & _ & Hd)|Hd]; [left|right];
    eauto.
Qed.

Lemma remove_sub_length (old s : pystr) (skip : nat) :
  (length (remove_sub old s skip) <= length s)%nat.
Proof.
  revert skip; induction s as [|c s IH]; intros skip; [reflexivity|].
  cbn [remove_sub length].
  destruct skip as [|k]; [|specialize (IH k); lia].
  destruct (startswith old (c :: s)).
  - specialize (IH (length old - 1)%nat); lia.
  - specialize (IH 0%nat); cbn [length]; lia.
Qed.

Lemma lstrip_length (chars s : pystr) :
  (length (lstrip chars s) <= length s)%nat.
Proof.
  induction s as [|c s IH]; [reflexivity|].
  cbn [lstrip]. destruct (in_chars c chars); cbn [length]; lia.
Qed.

Lemma rstrip_length (chars s : pystr) :
  (length (rstrip chars s) <= length s)%nat.
Proof.
  induction s as [|c s IH]; [reflexivity|].
  cbn [rstrip]. destruct (rstrip chars s) as [|r rs].
  - destruct (in_chars c chars); cbn [length]; lia.
  - cbn [length] in *; lia.
Qed.

Lemma join_tail_length (sep : pychar) (p : pystr) (ps : list pystr) :
  (length (join sep ps) <= length (join sep (p :: ps)))%nat.
Proof.
  destruct ps as [|q ps]; [cbn; lia|].
  rewrite (join_cons sep p (q :: ps)) by discriminate.
  rewrite length_app. cbn [length]. lia.
Qed.

Lemma join_skipn_length (sep : pychar) (k : nat) (ps : list pystr) :
  (length (join sep (skipn k ps)) <= length (join sep ps))%nat.
Proof.
  revert ps; induction k as [|k IH]; intros ps; [reflexivity|].
  destruct ps as [|p ps]; [reflexivity|].
  cbn [skipn]. pose proof (join_tail_length sep p ps). specialize (IH ps). lia.
Qed.

(** The string [uuid.UUID] measures is never longer than the one it is
    given. *)
Lemma UUID_of_hex_short (hex : pystr) :
  (length hex < 32)%nat -> uuid.UUID_of_hex hex = Raise ValueError.
Proof.
  intros Hl. unfold uuid.UUID_of_hex. cbv zeta.
  match goal with |- context [Nat.eqb (length ?h) 32] => set (cleaned := h) end.
  assert (Hc : (length cleaned <= length hex)%nat).
  { unfold cleaned, replace_empty, strip.
    etransitivity; [apply remove_sub_length|].
    etransitivity; [apply rstrip_length|].
    etransitivity; [apply lstrip_length|].
    etransitivity; [apply remove_sub_length|].
    apply remove_sub_length. }
  destruct (Nat.eqb_spec (length cleaned) 32); [lia|reflexivity].
Qed.

(** X11. An entry name of fewer than 32 characters never decodes. *)
Theorem short_entry_never_decodes (var : pystr) :
  (length var < 32)%nat ->
  decode_entry var
  = Raise (Exception (lit "Could not parse " ++ dquote :: var ++ [dquote])).
Proof.
  intros Hl. apply decode_entry_malformed, UUID_of_hex_short.
  unfold slice_last.
  pose proof (join_skipn_length hyphen
                (length (split hyphen var) - 5) (split hyphen var)) as H.
  rewrite join_split in H. lia.
Qed.

Lemma short_entry_never_decodes_witness :
  (length (lit "Boot0001-8be4df61-93ca-11d2") < 32)%nat
  /\ decode_entry (lit "Boot0001-8be4df61-93ca-11d2")
     = Raise (Exception (lit "Could not parse "
                           ++ dquote :: lit "Boot0001-8be4df61-93ca-11d2"
                           ++ [dquote])).
Proof.
  assert (H : (length (lit "Boot0001-8be4df61-93ca-11d2") < 32)%nat)
    by (simpl; lia).
  split; [exact H|].
  exact (short_entry_never_decodes (lit "Boot0001-8be4df61-93ca-11d2") H).
Defined.

(** X12. Decoding drops nothing of the entry: with more than five
    segments the entry is the decoded name, a hyphen and the text of the
    last five segments; with five segments or fewer the decoded name is
    empty. *)
Theorem decoded_name_is_prefix (var : pystr) (guid : list byte) (name : pystr) :
  decode_entry var = Return (guid, name) ->
  ((5 < length (split hyphen var))%nat ->
   var = name ++ hyphen :: join hyphen (slice_last 5 (split hyphen var)))
  /\ ((length (split hyphen var) <= 5)%nat -> name = []).
Proof.
  intros H. destruct (decode_entry_cases var) as [(u & _ & _ & Hd)|Hd];
    rewrite Hd in H; [|discriminate H].
  injection H as _ <-.
  unfold slice_last, slice_but_last.
  set (segs := split hyphen var).
  split; intros Hlen.
  - rewrite <- join_app.
    + now rewrite firstn_skipn; unfold segs; rewrite join_split.
    + intros E. apply (f_equal (@length pystr)) in E.
      rewrite length_firstn in E. cbn [length] in E. lia.
    + intros E. apply (f_equal (@length pystr)) in E.
      rewrite length_skipn in E. cbn [length] in E. lia.
  - replace (length segs - 5)%nat with 0%nat by lia. reflexivity.
Qed.

Lemma decoded_name_is_prefix_witness :
  let var := lit "my-var-name-8be4df61-93ca-11d2-aa0d-00e098032b8c" in
  decode_entry var = Return (uuid.bytes_le efi_global, lit "my-var-name")
  /\ (5 < length (split hyphen var))%nat
  /\ var = lit "my-var-name"
             ++ hyphen :: join hyphen (slice_last 5 (split hyphen var)).
Proof.
  cbv zeta.
  assert (H : decode_entry (lit "my-var-name-8be4df61-93ca-11d2-aa0d-00e098032b8c")
              = Return (uuid.bytes_le efi_global, lit "my-var-name"))
    by reflexivity.
  assert (Hl : (5 < length (split hyphen
                  (lit "my-var-name-8be4df61-93ca-11d2-aa0d-00e098032b8c")))%nat)
    by (simpl; lia).
  split; [exact H|]. split; [exact Hl|].
  exact (proj1 (decoded_name_is_prefix _ _ _ H) Hl).
Defined.

(** X13. When the file of a variable exists, [GetUefiVar] returns status 0
    with the whole content of the file, the attribute bytes included, and
    changes nothing. *)
Theorem GetUefiVar_found (name : pystr) (guid : uuid.UUID) (st : state)
    (data : list byte) :
  lookup (entry_name name guid) st = Some data ->
  GetUefiVar name guid st = (Return (0, Some data, None), st).
Proof.
  intros H. rewrite GetUefiVar_result, H. unfold stored.
  unfold lookup, file_content in H.
  change (lit "/sys/firmware/efi/efivars/" ++ entry_name name guid)
    with (var_path name guid) in H.
  destruct (os.resolve (var_path name guid)) as [[e|]|err];
    try discriminate H.
  destruct (efivars st) as [d|]; [|discriminate H].
  now rewrite (get_has_entry _ _ _ H).
Qed.

Lemma GetUefiVar_found_witness :
  let st := mkState (Some [(test_entry, [x07; x00; x00; x00; x01; x02])]) [] in
  lookup (entry_name (lit "Test") efi_global) st
  = Some [x07; x00; x00; x00; x01; x02]
  /\ GetUefiVar (lit "Test") efi_global st
     = (Return (0, Some [x07; x00; x00; x00; x01; x02], None), st).
Proof.
  cbv zeta.
  assert (H : lookup (entry_name (lit "Test") efi_global)
                (mkState (Some [(test_entry, [x07; x00; x00; x00; x01; x02])]) [])
              = Some [x07; x00; x00; x00; x01; x02]) by reflexivity.
  split; [exact H|].
  exact (GetUefiVar_found (lit "Test") efi_global _ _ H).
Defined.

(** ** Every case of [GetUefiAllVarNames] *)

(** X14. [GetUefiAllVarNames] returns a result exactly when the store
    directory is absent or holds no entry; with any entry in the store it
    raises. *)
Theorem enumeration_returns_iff (py : interp) (st : state) :
  (exists r st', GetUefiAllVarNames py st = (Return r, st'))
  <-> (efivars st = None \/ efivars st = Some []).
Proof.
  destruct st as [[[|[var data] rest]|] out]; split.
  - intros _. now right.
  - intros _. eexists. eexists. reflexivity.
  - intros (r & st' & H).
    destruct (nonempty_listing_raises py var data rest out) as (e & st2 & H2).
    assert (E := eq_trans (eq_sym H2) H). discriminate E.
  - intros [H|H]; discriminate H.
  - intros _. now left.
  - intros _. eexists. eexists. reflexivity.
Qed.

(** X15. [GetUefiAllVarNames] never changes the store, however it ends;
    it prints either nothing or the three lines of the first loop
    round. *)
Theorem enumeration_keeps_store (py : interp) (st : state) :
  efivars (snd (GetUefiAllVarNames py st)) = efivars st
  /\ (stdout (snd (GetUefiAllVarNames py st)) = stdout st
      \/ stdout (snd (GetUefiAllVarNames py st)) = printed (stdout st)).
Proof.
  destruct st as [[[|[var data] rest]|] out].
  - split; [reflexivity|left; reflexivity].
  - destruct (nonempty_listing_outcome py var data rest out)
      as (e & st' & H & Hst).
    cbv zeta in H, Hst. apply (f_equal snd) in H. cbn [snd] in H.
    destruct Hst as [-> | ->];
      (split; [exact (f_equal efivars H)|]); [left|right];
      exact (f_equal stdout H).
  - split; [reflexivity|left; reflexivity].
Qed.

(** X17. A listed name that holds a lone surrogate, which is what
    [os.listdir] puts for a byte of a file name that is no UTF-8, makes
    [GetUefiAllVarNames] raise [UnicodeEncodeError] in the length loop:
    nothing is printed and no entry is decoded, wherever the name stands
    in the listing. *)
Theorem unencodable_name_aborts (py : interp) (d : list entry)
    (out : list pystr) :
  Exists (fun var => str_encode var = Raise UnicodeEncodeError) (map fst d) ->
  GetUefiAllVarNames py (mkState (Some d) out)
  = (Raise UnicodeEncodeError, mkState (Some d) out).
Proof.
  intros H. apply listing_unencodable.
  apply Exists_exists in H as (var & Hin & Hv). apply Exists_exists.
  exists var. split; [exact Hin|]. unfold str_encode in Hv.
  destruct (existsb is_surrogate var); [reflexivity|discriminate Hv].
Qed.

Lemma unencodable_name_aborts_witness :
  let bad := Esc xe9 :: test_entry in
  let d := [(test_entry, [x07; x00; x00; x00]); (bad, [])] in
  Exists (fun var => str_encode var = Raise UnicodeEncodeError) (map fst d)
  /\ GetUefiAllVarNames cpython (mkState (Some d) [])
     = (Raise UnicodeEncodeError, mkState (Some d) []).
Proof.
  cbv zeta.
  assert (H : Exists (fun var => str_encode var = Raise UnicodeEncodeError)
                (map fst [(test_entry, [x07; x00; x00; x00]);
                          (Esc xe9 :: test_entry, [])])).
  { apply Exists_cons_tl, Exists_cons_hd. reflexivity. }
  split; [exact H|].
  exact (unencodable_name_aborts cpython _ [] H).
Defined.

(** ** Names that share a file *)

Lemma fsencode_prefix (a e : pystr) (ba : list byte) :
  os.fsencode a = Return ba ->
  os.fsencode (a ++ e)
  = match os.fsencode e with
    | Return bs => Return (ba ++ bs)
    | Raise err => Raise err
    end.
Proof.
  revert ba; induction a as [|c a IH]; intros ba Ha; simpl in *.
  - injection Ha as <-. now destruct (os.fsencode e).
  - destruct (os.utf8 c) as [bc|]; [|discriminate Ha].
    destruct (os.fsencode a) as [bs|err]; [|discriminate Ha].
    injection Ha as <-. rewrite (IH bs eq_refl).
    destruct (os.fsencode e); [now rewrite app_assoc|reflexivity].
Qed.

(** A [./] in front of an entry name is skipped by the walk. *)
Lemma resolve_dot_slash (e : pystr) :
  (os.fs_length (lit "/sys/firmware/efi/efivars/" ++ e) <= 4093)%nat ->
  os.resolve (lit "/sys/firmware/efi/efivars/" ++ lit "./" ++ e)
  = os.resolve (lit "/sys/firmware/efi/efivars/" ++ e).
Proof.
  intros Hlen.
  assert (Hpre : os.fsencode (lit "/sys/firmware/efi/efivars/")
                 = Return (map byte_of_Z
                             (map code (lit "/sys/firmware/efi/efivars/"))))
    by reflexivity.
  assert (Hdot : os.fsencode (lit "/sys/firmware/efi/efivars/./")
                 = Return (map byte_of_Z
                             (map code (lit "/sys/firmware/efi/efivars/./"))))
    by reflexivity.
  unfold os.fs_length in Hlen. rewrite (fsencode_prefix _ e _ Hpre) in Hlen.
  unfold os.resolve.
  change (lit "/sys/firmware/efi/efivars/" ++ lit "./" ++ e)
    with (lit "/sys/firmware/efi/efivars/./" ++ e).
  rewrite (fsencode_prefix _ e _ Hpre), (fsencode_prefix _ e _ Hdot).
  destruct (os.fsencode e) as [bs|err]; [|reflexivity].
  rewrite !existsb_app.
  replace (existsb (Byte.eqb x00)
             (map byte_of_Z (map code (lit "/sys/firmware/efi/efivars/./"))))
    with false by reflexivity.
  replace (existsb (Byte.eqb x00)
             (map byte_of_Z (map code (lit "/sys/firmware/efi/efivars/"))))
    with false by reflexivity.
  cbn [orb]. destruct (existsb (Byte.eqb x00) bs); [reflexivity|].
  rewrite length_app in Hlen. rewrite !length_app.
  replace (length (map byte_of_Z (map code (lit "/sys/firmware/efi/efivars/./"))))
    with 28%nat by reflexivity.
  replace (length (map byte_of_Z (map code (lit "/sys/firmware/efi/efivars/"))))
    with 26%nat in * by reflexivity.
  destruct (Nat.ltb_spec 4095 (28 + length bs)); [lia|].
  destruct (Nat.ltb_spec 4095 (26 + length bs)); [lia|].
  replace (startswith (lit "/") (lit "/sys/firmware/efi/efivars/./" ++ e))
    with true by reflexivity.
  replace (startswith (lit "/") (lit "/sys/firmware/efi/efivars/" ++ e))
    with true by reflexivity.
  change (lit "/sys/firmware/efi/efivars/./" ++ e)
    with (lit "/sys/firmware/efi/efivars/" ++ Chr "." :: Chr "/" :: e).
  rewrite !split_entry_path.
  change (Chr "." :: Chr "/" :: e) with ([Chr "."] ++ Chr "/" :: e).
  rewrite split_app_sep, !walk_to_store. reflexivity.
Qed.

(** X18. A variable name with [./] in front addresses the same file as
    the name without it, as long as the longer path fits PATH_MAX: the
    read and the write behave the same for both names, so two different
    names share one variable. *)
Theorem dot_slash_alias (name : pystr) (guid : uuid.UUID) :
  (os.fs_length (var_path name guid) <= 4093)%nat ->
  os.resolve (var_path (lit "./" ++ name) guid)
  = os.resolve (var_path name guid)
  /\ (forall st,
        GetUefiVar (lit "./" ++ name) guid st = GetUefiVar name guid st)
  /\ (forall var attrs st,
        SetUefiVar (lit "./" ++ name) guid var attrs st
        = SetUefiVar name guid var attrs st).
Proof.
  intros Hlen.
  assert (Hr : os.resolve (var_path (lit "./" ++ name) guid)
               = os.resolve (var_path name guid))
    by exact (resolve_dot_slash (entry_name name guid) Hlen).
  split; [exact Hr|]. split.
  - intros st. unfold GetUefiVar.
    change (lit "/sys/firmware/efi/efivars/" ++ (lit "./" ++ name)
              ++ hyphen :: uuid.str guid)
      with (var_path (lit "./" ++ name) guid).
    change (lit "/sys/firmware/efi/efivars/" ++ name ++ hyphen :: uuid.str guid)
      with (var_path name guid).
    cbv zeta. unfold bind, os.path_exists, os.read_file. now rewrite Hr.
  - intros var attrs st. unfold SetUefiVar.
    change (lit "/sys/firmware/efi/efivars/" ++ (lit "./" ++ name)
              ++ lit "-" ++ uuid.str guid)
      with (var_path (lit "./" ++ name) guid).
    change (lit "/sys/firmware/efi/efivars/" ++ name ++ lit "-" ++ uuid.str guid)
      with (var_path name guid).
    cbv zeta. unfold bind, os.path_exists, os.remove, os.open_wb.
    now rewrite Hr.
Qed.

Lemma dot_slash_alias_witness :
  let st := mkState (Some [(test_entry, [x07; x00; x00; x00; x2a])]) [] in
  (os.fs_length (var_path (lit "Test") efi_global) <= 4093)%nat
  /\ GetUefiVar (lit "./Test") efi_global st
     = (Return (0, Some [x07; x00; x00; x00; x2a], None), st)
  /\ SetUefiVar (lit "./Test") efi_global (Some [x01]) None st
     = (Return 1, mkState (Some [(test_entry, [x07; x00; x00; x00; x01])]) []).
Proof.
  cbv zeta.
  assert (H : (os.fs_length (var_path (lit "Test") efi_global) <= 4093)%nat).
  { apply Nat.leb_le. reflexivity. }
  split; [exact H|].
  destruct (dot_slash_alias (lit "Test") efi_global H) as (_ & Hg & Hs).
  split.
  - exact (eq_trans (Hg _) eq_refl).
  - exact (eq_trans (Hs _ _ _) eq_refl).
Defined.

(** ** [CreateBuffer] *)

(** X16. [CreateBuffer] returns no buffer for any argument: for a string
    or an integer it raises [NameError], the name [c_char] being bound
    nowhere in the module, and for anything else [TypeError]. *)
Theorem CreateBuffer_never_returns (object : Type) (global : pystr -> object)
    (array_buffer : object -> Z -> option pystr -> raised + list byte)
    (init : pyvalue) (size : option Z) :
  CreateBuffer object global array_buffer init size
  = inl match init with
        | VStr _ | VInt _ => NameError (lit "c_char")
        | _ => TypeError_of init
        end.
Proof. destruct init; reflexivity. Qed.
